(** * tclinter: ownership tree, command registry and reactive variables

    A shallow embedding of [src/com.name.winui-as-ttk/tclinter/__init__.py].
    Python objects are records of attribute slots, methods are functions in
    a state-and-exception monad, the native interpreter is a log of the
    operations issued against its handles. *)

From Stdlib Require Import ZArith String Ascii List Lia DecimalString DecimalNat.
From stdpp Require Import base decidable option list gmap sets strings.

Local Open Scope Z_scope.
Local Open Scope string_scope.

(** ** Exceptions and the method monad *)

(** The exception classes the module can raise.  [InstantiatedError] is the
    module's own subclass of [RuntimeError]; its payload is the [varname]
    handed to the constructor. *)
Inductive exn : Type :=
  | InstantiatedError (varname : string)
  | AttributeError
  | NameError
  | UnboundLocalError
  | NotImplementedError
  | RuntimeError
  | ValueError
  | TypeError
  | KeyError
  | ZeroDivisionError.

(** A method run leaves a state behind whether it returns or raises: Python
    does not roll back the writes made before a [raise]. *)
Inductive outcome (S A : Type) : Type :=
  | Return (a : A) (s : S)
  | Raise (e : exn) (s : S).
Arguments Return {S A} a s.
Arguments Raise {S A} e s.

Definition M (S A : Type) : Type := S -> outcome S A.

Definition ret {S A} (a : A) : M S A := fun s => Return a s.
Definition raise {S A} (e : exn) : M S A := fun s => Raise e s.
Definition bind {S A B} (m : M S A) (k : A -> M S B) : M S B :=
  fun s => match m s with
           | Return a s' => k a s'
           | Raise e s' => Raise e s'
           end.
Definition get {S} : M S S := fun s => Return s s.
Definition put {S} (s : S) : M S unit := fun _ => Return tt s.
Definition modify {S} (f : S -> S) : M S unit := fun s => Return tt (f s).

Declare Scope py_scope.
Delimit Scope py_scope with py.
Notation "x <- m ;; k" := (bind m (fun x => k))
  (at level 100, m at next level, right associativity) : py_scope.
Notation "m ;;; k" := (bind m (fun _ => k))
  (at level 100, right associativity) : py_scope.

Definition final_state {S A} (o : outcome S A) : S :=
  match o with Return _ s => s | Raise _ s => s end.

Definition raises {S A} (o : outcome S A) : Prop := exists e s, o = Raise e s.

(** [for x in xs: body(x)], stopping at the first iteration that raises. *)
Fixpoint for_each {S X} (xs : list X) (body : X -> M S unit) : M S unit :=
  match xs with
  | [] => ret tt
  | x :: xs' => (body x ;;; for_each xs' body)%py
  end.

(** ** Ratio *)

Module Ratio.

(** The three class-level defaults are [None]; an [option] is the Python
    value, [None] standing for Python's [None]. *)
Record t : Type := mk {
  numerator : option Z;
  denominator : option Z;
  reduced : option bool
}.

Definition class_defaults : t := mk None None None.

Definition opt_Z_eqb (a b : option Z) : bool :=
  match a, b with
  | Some x, Some y => Z.eqb x y
  | None, None => true
  | _, _ => false
  end.

(** [numerator.setter]: a value different from the stored one clears the
    flag, then the value is stored. *)
Definition set_numerator (val : option Z) : M t unit :=
  fun r =>
    let r1 := if negb (opt_Z_eqb val (numerator r))
              then mk (numerator r) (denominator r) (Some false)
              else r in
    Return tt (mk val (denominator r1) (reduced r1)).

Definition set_denominator (val : option Z) : M t unit :=
  fun r =>
    let r1 := if negb (opt_Z_eqb val (denominator r))
              then mk (numerator r) (denominator r) (Some false)
              else r in
    Return tt (mk (numerator r1) val (reduced r1)).

(** [math.gcd] rejects [None]; [//] on integers is floor division and
    raises on a zero divisor. *)
Definition gcd (a b : option Z) : M t Z :=
  match a, b with
  | Some x, Some y => ret (Z.gcd x y)
  | _, _ => raise TypeError
  end.

Definition floordiv (a : option Z) (b : Z) : M t (option Z) :=
  match a with
  | None => raise TypeError
  | Some x => if Z.eqb b 0 then raise ZeroDivisionError else ret (Some (x / b))
  end.

Definition reduce : M t unit :=
  (r <- get ;;
   cd <- gcd (numerator r) (denominator r) ;;
   r <- get ;;
   q <- floordiv (numerator r) cd ;;
   set_numerator q ;;;
   r <- get ;;
   q <- floordiv (denominator r) cd ;;
   set_denominator q ;;;
   modify (fun r => mk (numerator r) (denominator r) (Some true)))%py.

(** [not self.reduced] holds for [None] and for [False]. *)
Definition py_not (b : option bool) : bool :=
  match b with Some true => false | _ => true end.

Definition ratio : M t (option Z * option Z) :=
  (r <- get ;;
   (if py_not (reduced r) then reduce else ret tt) ;;;
   r <- get ;;
   ret (numerator r, denominator r))%py.

Definition init (numerator denominator : option Z) : M t unit :=
  (let numerator := match numerator with None => Some 1 | v => v end in
   set_numerator numerator ;;;
   let denominator := match denominator with None => Some 1 | v => v end in
   set_denominator denominator)%py.

(** [Ratio(n, d)] *)
Definition new (n d : option Z) : t := final_state (init n d class_defaults).

(** The states a [Ratio] goes through: construction, writes to either
    component, [reduce()] and reads of [ratio]. *)
Inductive reachable : t -> Prop :=
  | reach_new n d : reachable (new n d)
  | reach_numerator r v : reachable r -> reachable (final_state (set_numerator v r))
  | reach_denominator r v : reachable r -> reachable (final_state (set_denominator v r))
  | reach_reduce r : reachable r -> reachable (final_state (reduce r))
  | reach_ratio r : reachable r -> reachable (final_state (ratio r)).

(** The flag is only [True] on a pair in lowest terms. *)
Definition flag_sound (r : t) : Prop :=
  reduced r = Some true ->
  exists n d, numerator r = Some n /\ denominator r = Some d /\ Z.gcd n d = 1.

End Ratio.

(** ** Python values *)

Set Warnings "-register-all".

(** The values the module handles.  Functions are opaque and named by their
    identity; an instance of class [Callable] carries its [functions] list;
    [VEnforce b] is the bound method [b.enforce] of the [Bounds] object at
    address [b]; [VVar a] is a reference to the [Variable] at address [a]. *)
Inductive pyval : Type :=
  | VNone
  | VInt (z : Z)
  | VStr (s : string)
  | VTuple (items : list pyval)
  | VList (items : list pyval)
  | VFun (f : nat)
  | VGroup (functions : list pyval)
  | VEnforce (self : nat)
  | VVar (addr : nat).

(** [callable(v)] *)
Definition callable (v : pyval) : bool :=
  match v with
  | VFun _ | VGroup _ | VEnforce _ => true
  | _ => false
  end.

Definition is_None (v : pyval) : bool :=
  match v with VNone => true | _ => false end.

(** [type(v)], as far as [isinstance(x, type(v))] needs it: none of the
    modelled classes is a subclass of another. *)
Inductive pytype : Type :=
  TNoneType | TInt | TStr | TTuple | TList | TFunction | TCallable | TMethod | TVariable.

Definition type_of (v : pyval) : pytype :=
  match v with
  | VNone => TNoneType
  | VInt _ => TInt
  | VStr _ => TStr
  | VTuple _ => TTuple
  | VList _ => TList
  | VFun _ => TFunction
  | VGroup _ => TCallable
  | VEnforce _ => TMethod
  | VVar _ => TVariable
  end.

Definition pytype_eqb (a b : pytype) : bool :=
  match a, b with
  | TNoneType, TNoneType | TInt, TInt | TStr, TStr | TTuple, TTuple
  | TList, TList | TFunction, TFunction | TCallable, TCallable
  | TMethod, TMethod | TVariable, TVariable => true
  | _, _ => false
  end.

Definition isinstance (v : pyval) (ty : pytype) : bool :=
  pytype_eqb (type_of v) ty.

(** [str(n)] for an integer. *)
Definition str_of_Z (z : Z) : string := NilEmpty.string_of_int (Z.to_int z).
Definition str_of_nat (n : nat) : string := NilEmpty.string_of_uint (Nat.to_uint n).

(** The elements [*v] unpacks to; integers, [None] and callables are not
    iterable. *)
Fixpoint chars (s : string) : list pyval :=
  match s with
  | EmptyString => []
  | String c s' => VStr (String c EmptyString) :: chars s'
  end.

Definition py_iter {S} (v : pyval) : M S (list pyval) :=
  match v with
  | VTuple l | VList l => ret l
  | VStr s => ret (chars s)
  | _ => raise TypeError
  end.

(** [a < b] and [a <= b]: integers with integers, strings with strings;
    the other operand pairs that occur here ([None], mixed types,
    callables) are unorderable.  Ordering of sequences is not modelled. *)
Definition py_lt {S} (a b : pyval) : M S bool :=
  match a, b with
  | VInt x, VInt y => ret (Z.ltb x y)
  | VStr s, VStr t => ret (String.ltb s t)
  | _, _ => raise TypeError
  end.

Definition py_le {S} (a b : pyval) : M S bool :=
  match a, b with
  | VInt x, VInt y => ret (Z.leb x y)
  | VStr s, VStr t => ret (String.leb s t)
  | _, _ => raise TypeError
  end.

(** ** Dictionaries *)

(** A [dict] keeps insertion order: an association list without repeated
    keys. *)
Abbreviation dict V := (list (string * V)).

Definition keys {V} (d : dict V) : list string := map fst d.

Fixpoint dict_get {V} (d : dict V) (k : string) : option V :=
  match d with
  | [] => None
  | (k', v) :: d' => if String.eqb k' k then Some v else dict_get d' k
  end.

(** [d[k] = v]: an existing key keeps its position. *)
Fixpoint dict_set {V} (d : dict V) (k : string) (v : V) : dict V :=
  match d with
  | [] => [(k, v)]
  | (k', v') :: d' =>
      if String.eqb k' k then (k', v) :: d' else (k', v') :: dict_set d' k v
  end.

Fixpoint dict_del {V} (d : dict V) (k : string) : dict V :=
  match d with
  | [] => []
  | (k', v') :: d' => if String.eqb k' k then d' else (k', v') :: dict_del d' k
  end.

Definition dict_mem {V} (d : dict V) (k : string) : bool :=
  match dict_get d k with Some _ => true | None => false end.

(** ** Reactive variables and bounds *)

(** Class [Variable]: [HasObserver.__observers] and [Variable.__value] both
    default to [None] at class level. *)
Record PyVariable : Type := mkVariable {
  Variable__observers : option (dict pyval);
  Variable__value : pyval
}.

Record Bounds : Type := mkBounds {
  Bounds__minimum : pyval;
  Bounds__maximum : pyval;
  Bounds__enforces : pyval
}.

Definition Variable_defaults : PyVariable := mkVariable None VNone.
Definition Bounds_defaults : Bounds := mkBounds VNone VNone VNone.

(** The objects alive, by address, and the calls made so far to opaque
    functions and to [enforce] methods, oldest first. *)
Record World : Type := mkWorld {
  variables : list PyVariable;
  bounds : list Bounds;
  calls : list (pyval * list pyval)
}.

Definition empty_world : World := mkWorld [] [] [].

(** The world with more calls on its log. *)
Definition logged (w : World) (entries : list (pyval * list pyval)) : World :=
  mkWorld (variables w) (bounds w) (calls w ++ entries).

Definition log_call (callee : pyval) (args : list pyval) : M World unit :=
  modify (fun w => logged w [(callee, args)]).

Definition load_Variable (a : nat) : M World PyVariable :=
  fun w => match variables w !! a with
           | Some v => Return v w
           | None => Raise AttributeError w
           end.

Definition store_Variable (a : nat) (v : PyVariable) : M World unit :=
  modify (fun w => mkWorld (<[a:=v]> (variables w)) (bounds w) (calls w)).

Definition load_Bounds (a : nat) : M World Bounds :=
  fun w => match bounds w !! a with
           | Some b => Return b w
           | None => Raise AttributeError w
           end.

Definition store_Bounds (a : nat) (b : Bounds) : M World unit :=
  modify (fun w => mkWorld (variables w) (<[a:=b]> (bounds w)) (calls w)).

(** [x.value] for whatever [x] is: only a [Variable] has the attribute. *)
Definition getattr_value (x : pyval) : M World pyval :=
  match x with
  | VVar a => (v <- load_Variable a ;; ret (Variable__value v))%py
  | _ => raise AttributeError
  end.

(** [x.observers] *)
Definition getattr_observers (x : pyval) : M World (option (dict pyval)) :=
  match x with
  | VVar a => (v <- load_Variable a ;; ret (Variable__observers v))%py
  | _ => raise AttributeError
  end.

(** [Bounds.enforce]: the chained comparison evaluates the middle operand
    once and the right-hand comparison only when the left one holds. *)
Definition Bounds_enforce (self : nat) : M World unit :=
  (b <- load_Bounds self ;;
   cur <- getattr_value (Bounds__enforces b) ;;
   lo_ok <- py_le (Bounds__minimum b) cur ;;
   inside <- (if lo_ok then py_le cur (Bounds__maximum b) else ret false) ;;
   if negb inside then raise RuntimeError else ret tt)%py.

Section Calls.

(** What every opaque function does with its arguments: return a value or
    raise.  Opaque functions do not write to the objects of the module. *)
Variable fn_body : nat -> list pyval -> pyval + exn.

(** the call of [v] on the unpacked [args].  [Callable.__call__] walks [reversed(self.functions)]: the
    last function runs first, on the arguments of the call, and each result
    becomes the argument tuple of the next one ([None] standing for no
    argument); the recursion below reaches the last function first. *)
Fixpoint call (v : pyval) (args : list pyval) {struct v} : M World pyval :=
  match v with
  | VFun f =>
      (log_call (VFun f) args ;;;
       match fn_body f args with
       | inl r => ret r
       | inr e => raise e
       end)%py
  | VEnforce b =>
      match args with
      | [] => (log_call (VEnforce b) [] ;;; Bounds_enforce b ;;; ret VNone)%py
      | _ => raise TypeError
      end
  | VGroup functions =>
      (fix chain (fs : list pyval) : M World pyval :=
         match fs with
         | [] => ret (VTuple args)
         | function :: later =>
             (args <- chain later ;;
              if is_None args then call function []
              else (xs <- py_iter args ;; call function xs))%py
         end) functions
  | _ => raise TypeError
  end.

(** The constructor of [Callable] keeps the callable arguments. *)
Definition Callable___init__ (args : list pyval) : pyval :=
  VGroup (List.filter callable args).

(** [reversed(functions)] walked front to back, as the loop is written. *)
Fixpoint Callable_loop (fs : list pyval) (args : pyval) : M World pyval :=
  match fs with
  | [] => ret args
  | function :: rest =>
      (args <- (if is_None args then call function []
                else (xs <- py_iter args ;; call function xs)) ;;
       Callable_loop rest args)%py
  end.

Definition Callable___call__ (functions : list pyval) (args : list pyval) : M World pyval :=
  Callable_loop (rev functions) (VTuple args).

(** *** Observers *)

(** [Observers.__setitem__]: the key is coerced with [str]. *)
Inductive obs_key : Type := KStr (s : string) | KInt (z : Z).

Definition str_of_key (k : obs_key) : string :=
  match k with KStr s => s | KInt z => str_of_Z z end.

Definition Observers___setitem__ (self : dict pyval) (key : obs_key) (value : pyval)
  : M World (dict pyval) :=
  if negb (callable value) then raise ValueError
  else ret (dict_set self (str_of_key key) value).

Definition Observers___getitem__ (self : dict pyval) (key : string) : M World pyval :=
  match dict_get self key with
  | Some v => ret v
  | None => raise KeyError
  end.

Fixpoint call_all (items : list (string * pyval)) (result : dict pyval)
  : M World (dict pyval) :=
  match items with
  | [] => ret result
  | (name, observer) :: rest =>
      (r <- call observer [] ;;
       call_all rest (dict_set result name r))%py
  end.

Fixpoint call_named (self : dict pyval) (args : list string) (result : dict pyval)
  : M World (dict pyval) :=
  match args with
  | [] => ret result
  | key :: rest =>
      (observer <- Observers___getitem__ self key ;;
       r <- call observer [] ;;
       call_named self rest (dict_set result key r))%py
  end.

Fixpoint call_kw (self : dict pyval) (kw : list (string * pyval)) (result : dict pyval)
  : M World (dict pyval) :=
  match kw with
  | [] => ret result
  | (key, value) :: rest =>
      (observer <- Observers___getitem__ self key ;;
       r <- match value with
            | VTuple xs | VList xs => call observer xs
            | _ => call observer [value]
            end ;;
       call_kw self rest (dict_set result key r))%py
  end.

Definition Observers___call__ (self : dict pyval) (args : list string)
    (kw : list (string * pyval)) : M World (dict pyval) :=
  match args, kw with
  | [], [] => call_all self []
  | _, _ => (result <- call_named self args [] ;; call_kw self kw result)%py
  end.

(** *** Variable *)

Definition HasObserver_set_observers (self : nat) (val : dict pyval) : M World unit :=
  (v <- load_Variable self ;;
   match Variable__observers v with
   | Some _ => raise (InstantiatedError "Variable __observers")
   | None => store_Variable self (mkVariable (Some val) (Variable__value v))
   end)%py.

Definition HasObserver___init__ (self : nat) : M World unit :=
  HasObserver_set_observers self [].

(** [value.setter]: store, then broadcast. *)
Definition Variable_set_value (self : nat) (val : pyval) : M World unit :=
  (v <- load_Variable self ;;
   store_Variable self (mkVariable (Variable__observers v) val) ;;;
   observers <- getattr_observers (VVar self) ;;
   match observers with
   | None => raise TypeError
   | Some d => (Observers___call__ d [] [] ;;; ret tt)
   end)%py.

Definition Variable___init__ (self : nat) (default value : pyval) : M World unit :=
  (HasObserver___init__ self ;;;
   value <- (if is_None value
             then (if negb (callable default) then raise ValueError
                   else call default [])
             else ret value) ;;
   Variable_set_value self value)%py.

(** [Variable(default, value)]: a new object at the next address. *)
Definition new_Variable (default value : pyval) : M World nat :=
  (w <- get ;;
   let self := length (variables w) in
   put (mkWorld (variables w ++ [Variable_defaults]) (bounds w) (calls w)) ;;;
   Variable___init__ self default value ;;;
   ret self)%py.

(** *** Bounds *)

Definition Bounds_set_minimum (self : nat) (val : pyval) : M World unit :=
  (b <- load_Bounds self ;;
   cur <- getattr_value (Bounds__enforces b) ;;
   if negb (isinstance val (type_of cur)) then raise TypeError
   else
     (inverted <- (if negb (is_None (Bounds__maximum b))
                   then py_lt (Bounds__maximum b) val else ret false) ;;
      if inverted then raise ValueError
      else store_Bounds self (mkBounds val (Bounds__maximum b) (Bounds__enforces b))))%py.

Definition Bounds_set_maximum (self : nat) (val : pyval) : M World unit :=
  (b <- load_Bounds self ;;
   cur <- getattr_value (Bounds__enforces b) ;;
   if negb (isinstance val (type_of cur)) then raise TypeError
   else
     (inverted <- (if negb (is_None (Bounds__minimum b))
                   then py_lt val (Bounds__minimum b) else ret false) ;;
      if inverted then raise ValueError
      else store_Bounds self (mkBounds (Bounds__minimum b) val (Bounds__enforces b))))%py.

(** [id(self)] is the address. *)
Definition Bounds___init__ (self : nat) (obj minimum maximum : pyval) : M World unit :=
  (if negb (isinstance obj TVariable) then raise RuntimeError
   else
     (b <- load_Bounds self ;;
      store_Bounds self (mkBounds (Bounds__minimum b) (Bounds__maximum b) obj) ;;;
      b <- load_Bounds self ;;
      observers <- getattr_observers (Bounds__enforces b) ;;
      match observers, Bounds__enforces b with
      | Some d, VVar a =>
          (d' <- Observers___setitem__ d (KInt (Z.of_nat self)) (VEnforce self) ;;
           v <- load_Variable a ;;
           store_Variable a (mkVariable (Some d') (Variable__value v)))
      | _, _ => raise TypeError
      end ;;;
      (if negb (is_None minimum) then Bounds_set_minimum self minimum else ret tt) ;;;
      (if negb (is_None maximum) then Bounds_set_maximum self maximum else ret tt)))%py.

(** [Bounds(obj, minimum, maximum)] *)
Definition new_Bounds (obj minimum maximum : pyval) : M World nat :=
  (w <- get ;;
   let self := length (bounds w) in
   put (mkWorld (variables w) (bounds w ++ [Bounds_defaults]) (calls w)) ;;;
   Bounds___init__ self obj minimum maximum ;;;
   ret self)%py.

End Calls.

(** ** Nodes of the ownership tree *)

(** An attribute as [getattr] finds it: absent (reading it raises
    [AttributeError]), bound to [None], or bound to a value. *)
Inductive slot (A : Type) : Type :=
  | Missing
  | PyNone
  | Bound (a : A).
Arguments Missing {A}.
Arguments PyNone {A}.
Arguments Bound {A} a.

Definition of_py {A} (val : option A) : slot A :=
  match val with None => PyNone | Some a => Bound a end.

(** What reaches the native interpreter, per handle. *)
Inductive native_op : Type :=
  | Ncreatecommand (tk : nat) (name : string) (func : pyval)
  | Ndeletecommand (tk : nat) (name : string)
  | Ncall (tk : nat) (args : list pyval)
  | Nsettrace (tk : nat) (debugger : pyval).

(** The attributes of one object of the tree.  A private name [__x] written
    inside class [C] denotes the attribute [_C__x]: each field below is
    named after the class whose methods read and write it.
    [HasTclCommands__flags] is the name the [flags] setter tests;
    [inst_do] is the instance attribute [do] a widget copies from its
    parent, recorded as the handle that bound method calls into. *)
Record Node : Type := mkNode {
  class_name : string;
  HasTcl__tk : slot nat;
  HasTcl__tcl_varname : slot string;
  HasTclCommands__tcl_commands : slot (dict pyval);
  HasTclCommands__tcl_flags : slot (dict pyval);
  HasTclCommands__flags : slot (dict pyval);
  HasChildren__children : slot (gset nat);
  HasParent__parent : slot nat;
  inst_do : option nat
}.

(** What a method of a node can see and change: the node itself, the
    instance set [cls.__instances], the module-level pool [_roots], and the
    operations issued so far. *)
Record State : Type := mkState {
  node : Node;
  instances : slot (gset nat);
  roots : list nat;
  native : list native_op
}.

Definition get_node : M State Node := fun st => Return (node st) st.
Definition put_node (n : Node) : M State unit :=
  modify (fun st => mkState n (instances st) (roots st) (native st)).
Definition put_instances (s : slot (gset nat)) : M State unit :=
  modify (fun st => mkState (node st) s (roots st) (native st)).
Definition put_roots (r : list nat) : M State unit :=
  modify (fun st => mkState (node st) (instances st) r (native st)).
Definition issue (op : native_op) : M State unit :=
  modify (fun st => mkState (node st) (instances st) (roots st) (native st ++ [op])).

Definition with_tk (n : Node) (v : slot nat) : Node :=
  mkNode (class_name n) v (HasTcl__tcl_varname n) (HasTclCommands__tcl_commands n)
    (HasTclCommands__tcl_flags n) (HasTclCommands__flags n)
    (HasChildren__children n) (HasParent__parent n) (inst_do n).
Definition with_tcl_varname (n : Node) (v : slot string) : Node :=
  mkNode (class_name n) (HasTcl__tk n) v (HasTclCommands__tcl_commands n)
    (HasTclCommands__tcl_flags n) (HasTclCommands__flags n)
    (HasChildren__children n) (HasParent__parent n) (inst_do n).
Definition with_commands (n : Node) (v : slot (dict pyval)) : Node :=
  mkNode (class_name n) (HasTcl__tk n) (HasTcl__tcl_varname n) v
    (HasTclCommands__tcl_flags n) (HasTclCommands__flags n)
    (HasChildren__children n) (HasParent__parent n) (inst_do n).
Definition with_tcl_flags (n : Node) (v : slot (dict pyval)) : Node :=
  mkNode (class_name n) (HasTcl__tk n) (HasTcl__tcl_varname n)
    (HasTclCommands__tcl_commands n) v (HasTclCommands__flags n)
    (HasChildren__children n) (HasParent__parent n) (inst_do n).
Definition with_children (n : Node) (v : slot (gset nat)) : Node :=
  mkNode (class_name n) (HasTcl__tk n) (HasTcl__tcl_varname n)
    (HasTclCommands__tcl_commands n) (HasTclCommands__tcl_flags n)
    (HasTclCommands__flags n) v (HasParent__parent n) (inst_do n).
Definition with_parent (n : Node) (v : slot nat) : Node :=
  mkNode (class_name n) (HasTcl__tk n) (HasTcl__tcl_varname n)
    (HasTclCommands__tcl_commands n) (HasTclCommands__tcl_flags n)
    (HasTclCommands__flags n) (HasChildren__children n) v (inst_do n).

Definition dquote : string := String (ascii_of_nat 34) EmptyString.

(** *** Write-once properties *)

(** The shape all six setters share: read the guarded attribute, refuse
    when it is not [None], store otherwise. *)
Definition write_once {A B} (guard : Node -> slot A) (varname : Node -> string)
    (store : Node -> slot B -> Node) (val : option B) : M State unit :=
  (n <- get_node ;;
   match guard n with
   | Missing => raise AttributeError
   | Bound _ => raise (InstantiatedError (varname n))
   | PyNone => put_node (store n (of_py val))
   end)%py.

Definition HasTcl_set_tk : option nat -> M State unit :=
  write_once HasTcl__tk (fun _ => dquote ++ "global __tk" ++ dquote) with_tk.

Definition HasTcl_set_tcl_varname : option string -> M State unit :=
  write_once HasTcl__tcl_varname (fun n => class_name n ++ " __tcl_varname")
    with_tcl_varname.

Definition HasTclCommands_set_commands : option (dict pyval) -> M State unit :=
  write_once HasTclCommands__tcl_commands (fun n => class_name n ++ "__tcl_commands")
    with_commands.

(** The [flags] setter tests [self.__flags] and stores [self.__tcl_flags]. *)
Definition HasTclCommands_set_flags : option (dict pyval) -> M State unit :=
  write_once HasTclCommands__flags (fun n => class_name n ++ "__tcl_flags")
    with_tcl_flags.

Definition HasChildren_set_children : option (gset nat) -> M State unit :=
  write_once HasChildren__children (fun n => class_name n ++ "__children")
    with_children.

Definition HasParent_set_parent : option nat -> M State unit :=
  write_once HasParent__parent (fun n => class_name n ++ "__parent") with_parent.

(** *** Getters *)

Definition read {A} (field : Node -> slot A) : M State (option A) :=
  (n <- get_node ;;
   match field n with
   | Missing => raise AttributeError
   | PyNone => ret None
   | Bound a => ret (Some a)
   end)%py.

Definition HasTcl_tk := read HasTcl__tk.
Definition HasTcl_tcl_varname := read HasTcl__tcl_varname.
Definition HasTclCommands_commands := read HasTclCommands__tcl_commands.
Definition HasTclCommands_flags := read HasTclCommands__tcl_flags.
Definition HasChildren_children := read HasChildren__children.
Definition HasParent_parent := read HasParent__parent.

(** *** HasTcl *)

(** [self.tk.m(...)]: [None] has none of the handle's methods. *)
Definition the_handle : M State nat :=
  (tk <- HasTcl_tk ;;
   match tk with
   | None => raise AttributeError
   | Some h => ret h
   end)%py.

Definition HasTcl_do (args : list pyval) : M State unit :=
  (h <- the_handle ;; issue (Ncall h args))%py.

Definition HasTcl_createcommand (name : string) (func : pyval) : M State unit :=
  (h <- the_handle ;; issue (Ncreatecommand h name func))%py.

Definition HasTcl_deletecommand (command : string) : M State unit :=
  (h <- the_handle ;; issue (Ndeletecommand h command))%py.

Definition HasTcl_settrace (debugger : pyval) : M State unit :=
  (h <- the_handle ;; issue (Nsettrace h debugger))%py.

(** [self.do]: the instance attribute, when the widget has one, shadows the
    method of [HasTcl]. *)
Definition getattr_do : M State (list pyval -> M State unit) :=
  (n <- get_node ;;
   match inst_do n with
   | Some h => ret (fun args => issue (Ncall h args))
   | None => ret HasTcl_do
   end)%py.

(** [TCL.DESTROY.value]: the member's name, lower-cased. *)
Definition TCL_DESTROY : string := "destroy".

Definition value_of_varname (v : option string) : pyval :=
  match v with None => VNone | Some s => VStr s end.

(** *** HasTclCommands *)

Section Registry.

(** [id(x)] of the objects handed to the registry. *)
Variable id_of : pyval -> nat.

(** The body registered for [Callable].  The stored function is
    [val.__call__]; only a bound method has a [__func__] to take a name
    from. *)
Definition addcommand_Callable (val : pyval) : M State string :=
  (let func := val in
   let name := str_of_nat (id_of func) in
   let name := match val with
               | VGroup _ => name ++ "__call__"
               | _ => name
               end in
   HasTcl_createcommand name func ;;;
   commands <- HasTclCommands_commands ;;
   match commands with
   | None => raise AttributeError
   | Some d =>
       (n <- get_node ;;
        put_node (with_commands n (Bound (dict_set d name func))) ;;;
        ret name)
   end)%py.

(** [functools.singledispatch] selects on the class of the first positional
    argument, which for a method is [self]: no node is a [Callable], so the
    undecorated body runs. *)
Definition addcommand (val : pyval) : M State string :=
  raise NotImplementedError.

Definition addalias (alias name : string) : M State unit :=
  (commands <- HasTclCommands_commands ;;
   match commands with
   | None => raise TypeError
   | Some d =>
       if negb (dict_mem d name) then raise RuntimeError
       else (n <- get_node ;;
             put_node (with_commands n (Bound (dict_set d alias (VStr name)))))
   end)%py.

(** The body registered for [str]. *)
Definition addflag_str (val : string) (args : list pyval) : M State string :=
  (flags <- HasTclCommands_flags ;;
   match flags with
   | None => raise TypeError
   | Some d =>
       (n <- get_node ;;
        put_node (with_tcl_flags n
                    (Bound (dict_set d val (VTuple (VStr ("-" ++ val) :: args))))) ;;;
        ret val)
   end)%py.

(** Dispatched on [self] as well. *)
Definition addflag (val : string) (args : list pyval) : M State string :=
  raise NotImplementedError.

Definition all_callable (v : pyval) : bool :=
  match v with
  | VList items | VTuple items => forallb callable items
  | _ => false
  end.

Definition items_of (v : pyval) : list pyval :=
  match v with
  | VList items | VTuple items => items
  | _ => []
  end.

(** The constructor's loop.  The loop binds [key] and [vaue]; the body reads
    the local [value], which only the body itself assigns: [None] here is
    the unbound local. *)
Fixpoint HasTclCommands_init_loop (items : list (string * pyval)) (value : option pyval)
  : M State unit :=
  match items with
  | [] => ret tt
  | (key, vaue) :: rest =>
      match value with
      | None => raise UnboundLocalError
      | Some value =>
          let value :=
            if callable value then Callable___init__ [value]
            else if all_callable value then Callable___init__ (items_of value)
            else value in
          if isinstance value TCallable
          then (command <- addcommand value ;;
                addalias key command ;;;
                HasTclCommands_init_loop rest (Some value))%py
          else (addflag key [value] ;;;
                HasTclCommands_init_loop rest (Some value))%py
      end
  end.

Definition HasTclCommands___init__ (kw : list (string * pyval)) : M State unit :=
  (HasTclCommands_set_commands (Some []) ;;;
   HasTclCommands_set_flags (Some []) ;;;
   HasTclCommands_init_loop kw None)%py.

End Registry.

(** [tuple(self.commands)] *)
Definition tuple_of_commands : M State (list string) :=
  (commands <- HasTclCommands_commands ;;
   match commands with
   | None => raise TypeError
   | Some d => ret (keys d)
   end)%py.

(** [self.commands.pop(command)] *)
Definition commands_pop (command : string) : M State unit :=
  (commands <- HasTclCommands_commands ;;
   match commands with
   | None => raise AttributeError
   | Some d =>
       if negb (dict_mem d command) then raise KeyError
       else (n <- get_node ;; put_node (with_commands n (Bound (dict_del d command))))
   end)%py.

Definition HasTclCommands___del__ : M State unit :=
  (cs <- tuple_of_commands ;;
   for_each cs (fun command =>
     commands_pop command ;;;
     HasTcl_deletecommand command) ;;;
   do <- getattr_do ;;
   varname <- HasTcl_tcl_varname ;;
   do [VStr TCL_DESTROY; value_of_varname varname])%py.

(** *** HasInstanceTracking *)

Definition getinstances : M State (option (gset nat)) :=
  fun st => match instances st with
            | Missing => Raise AttributeError st
            | PyNone => Return None st
            | Bound s => Return (Some s) st
            end.

Definition addinstance (instance : nat) : M State unit :=
  (s <- getinstances ;;
   match s with
   | None => raise AttributeError
   | Some s => put_instances (Bound (s ∪ {[instance]}))
   end)%py.

(** [set.remove] raises on a member that is not there. *)
Definition delinstance (instance : nat) : M State unit :=
  (s <- getinstances ;;
   match s with
   | None => raise AttributeError
   | Some s =>
       if decide (instance ∈ s) then put_instances (Bound (s ∖ {[instance]}))
       else raise KeyError
   end)%py.

(** *** HasChildren and HasParent *)

Definition children_remove (child : nat) : M State unit :=
  (children <- HasChildren_children ;;
   match children with
   | None => raise AttributeError
   | Some s =>
       if decide (child ∈ s)
       then (n <- get_node ;; put_node (with_children n (Bound (s ∖ {[child]}))))
       else raise KeyError
   end)%py.

(** [del child] unbinds the loop variable; it is not a call. *)
Definition HasChildren___del__ : M State unit :=
  (children <- HasChildren_children ;;
   match children with
   | None => raise TypeError
   | Some s => for_each (elements s) (fun child => children_remove child)
   end)%py.

(** [self.parent.remove(self)]: no class of the module gives a node a
    [remove] attribute, and [None] has none either. *)
Definition HasParent___del__ (self : nat) : M State unit :=
  (parent <- HasParent_parent ;;
   raise AttributeError)%py.

(** *** The pool of roots *)

Fixpoint index_of (x : nat) (l : list nat) : option nat :=
  match l with
  | [] => None
  | y :: l' => if Nat.eqb y x then Some O else option_map S (index_of x l')
  end.

Fixpoint pop_at (i : nat) (l : list nat) : list nat :=
  match i, l with
  | _, [] => []
  | O, _ :: l' => l'
  | S i', y :: l' => y :: pop_at i' l'
  end.

(** The module-level [delroot] once the definition for [__Root] has rebound
    the name: [_roots.index(root)], then [_roots.pop(index)]. *)
Definition delroot (root : nat) : M State unit :=
  (st <- get ;;
   match index_of root (roots st) with
   | None => raise ValueError
   | Some index => put_roots (pop_at index (roots st))
   end)%py.

(** *** Destructors *)

Definition Root___del__ (self : nat) : M State unit :=
  (HasTclCommands___del__ ;;;
   HasChildren___del__ ;;;
   delroot self)%py.

Definition BareWidget___del__ (self : nat) : M State unit :=
  (HasTclCommands___del__ ;;;
   delinstance self ;;;
   HasParent___del__ self ;;;
   HasChildren___del__)%py.

Definition Window___del__ (self : nat) : M State unit :=
  BareWidget___del__ self.

(** *** Names *)

Definition lower_ascii (c : ascii) : ascii :=
  let n := nat_of_ascii c in
  if (Nat.leb 65 n && Nat.leb n 90)%bool then ascii_of_nat (n + 32) else c.

(** [str.lower] on the ASCII letters class names are written in. *)
Fixpoint lower (s : string) : string :=
  match s with
  | EmptyString => EmptyString
  | String c s' => String (lower_ascii c) (lower s')
  end.

(** [not v] *)
Definition falsy (v : pyval) : bool :=
  match v with
  | VNone => true
  | VInt z => Z.eqb z 0
  | VStr s => String.eqb s EmptyString
  | VTuple [] | VList [] => true
  | _ => false
  end.

(** The naming block of [BareWidget.__init__]: the explicit [name] of the
    configuration, else the lower-cased class name followed by the number
    of tracked instances when that number is not zero. *)
Definition BareWidget_name (kw : list (string * pyval)) : M State pyval :=
  (let name := match dict_get kw "name" with Some v => v | None => VNone end in
   if falsy name
   then (n <- get_node ;;
         let name := lower (class_name n) in
         tracked <- getinstances ;;
         match tracked with
         | None => raise TypeError
         | Some s =>
             let index := size s in
             if Nat.eqb index 0 then ret (VStr name)
             else ret (VStr (name ++ str_of_nat index))
         end)
   else ret name)%py.

(** [self.parent.tcl_varname + "!" + name + "."] *)
Definition tree_path (parent_varname name : string) : string :=
  parent_varname ++ "!" ++ name ++ ".".

(** What a widget's life does to the tracker: construction derives the
    name and, as its last statement, adds the instance; destruction removes
    it. *)
Inductive life : Type :=
  | Construct (self : nat)
  | Destroy (self : nat).

Definition live_step (ev : life) : M State (option pyval) :=
  match ev with
  | Construct self =>
      (name <- BareWidget_name [] ;; addinstance self ;;; ret (Some name))%py
  | Destroy self => (delinstance self ;;; ret None)%py
  end.

(** The names handed out along a run, with the widget that received each. *)
Fixpoint live_run (evs : list life) (st : State) : list (nat * pyval) :=
  match evs with
  | [] => []
  | ev :: rest =>
      let o := live_step ev st in
      match ev, o with
      | Construct self, Return (Some name) st' => (self, name) :: live_run rest st'
      | _, _ => live_run rest (final_state o)
      end
  end.

(** ** Specification vocabulary *)

(** *** Destruction order *)



(** The operations a run added to the log: the log only grows. *)
Definition issued_by {A} (m : M State A) (st : State) : list native_op :=
  drop (length (native st)) (native (final_state (m st))).


(** The handle [self.do] reaches. *)
Definition do_handle (n : Node) (tk : nat) : nat :=
  match inst_do n with Some h => h | None => tk end.

(** *** Names *)

(** The name the block derives when [index] instances are tracked. *)
Definition name_at (cls : string) (index : nat) : pyval :=
  if Nat.eqb index 0 then VStr (lower cls)
  else VStr (lower cls ++ str_of_nat index).

(** Uniqueness as the specification words it: whatever the interleaving
    of constructions and destructions, no name is handed out twice. *)
Definition names_distinct (evs : list life) (st : State) : Prop :=
  NoDup (map snd (live_run evs st)).

Fixpoint live_final (evs : list life) (st : State) : State :=
  match evs with
  | [] => st
  | ev :: rest => live_final rest (final_state (live_step ev st))
  end.

(** *** Broadcast *)

(** Observers that are opaque functions or [enforce] methods leave one
    entry in the call log per invocation. *)
Definition leaf (o : pyval) : bool :=
  match o with VFun _ | VEnforce _ => true | _ => false end.

Definition enforce_raises (vars : list PyVariable) (bnds : list Bounds) (b : nat)
  : option exn :=
  match Bounds_enforce b (mkWorld vars bnds []) with
  | Return _ _ => None
  | Raise e _ => Some e
  end.

(** Calls with no argument. *)
Definition no_args (os : list pyval) : list (pyval * list pyval) :=
  map (fun o => (o, [])) os.

Section BroadcastVocabulary.
Variable fn_body : nat -> list pyval -> pyval + exn.

(** What invoking an observer with no argument ends in. *)
Definition observer_raises (vars : list PyVariable) (bnds : list Bounds) (o : pyval)
  : option exn :=
  match o with
  | VFun f => match fn_body f [] with inl _ => None | inr e => Some e end
  | VEnforce b => enforce_raises vars bnds b
  | _ => Some TypeError
  end.

(** The observers a broadcast reaches: all of them up to and including
    the first one that raises. *)
Fixpoint invoked (vars : list PyVariable) (bnds : list Bounds) (d : dict pyval)
  : list pyval :=
  match d with
  | [] => []
  | (_, o) :: d' =>
      o :: match observer_raises vars bnds o with
           | None => invoked vars bnds d'
           | Some _ => []
           end
  end.

Fixpoint first_raise (vars : list PyVariable) (bnds : list Bounds) (d : dict pyval)
  : option exn :=
  match d with
  | [] => None
  | (_, o) :: d' =>
      match observer_raises vars bnds o with
      | None => first_raise vars bnds d'
      | Some e => Some e
      end
  end.


(** *** Callback groups *)



End BroadcastVocabulary.

(** ** Sample objects *)

(** An object of class [HasTclCommands] before [__init__] runs: the class
    binds [__tcl_commands] and [__tcl_flags] to [None] and nothing else. *)
Definition fresh_HasTclCommands : Node :=
  mkNode "HasTclCommands" Missing Missing PyNone PyNone Missing Missing Missing None.

Definition state_of (n : Node) : State := mkState n Missing [] [].

(** A node whose flags mapping holds one entry. *)
Definition node_with_flags : Node :=
  mkNode "HasTclCommands" (Bound 1%nat) (Bound ".") (Bound [])
    (Bound [("text", VTuple [VStr "-text"; VStr "hi"])]) Missing Missing Missing None.


(** A session [.] of handle 1 holding two commands. *)
Definition sample_root : State :=
  mkState
    (mkNode "__Root" (Bound 1%nat) (Bound ".")
       (Bound [("140__call__", VGroup [VFun 0]); ("152__call__", VGroup [VFun 1])])
       (Bound []) Missing (Bound ∅) Missing None)
    Missing [1%nat] [].

(** A class [Button] with no instance yet. *)
Definition no_button : State :=
  mkState
    (mkNode "Button" Missing Missing PyNone PyNone Missing Missing Missing None)
    (Bound ∅) [] [].

(** Function 0 raises, function 1 returns [2], function 2 returns its
    arguments as a tuple, any other returns [None]. *)
Definition sample_body (f : nat) (args : list pyval) : pyval + exn :=
  match f with
  | 0%nat => inr RuntimeError
  | 1%nat => inl (VInt 2)
  | 2%nat => inl (VTuple args)
  | _ => inl VNone
  end.

(** One variable holding [5], observed by functions 0 and 3 in that
    order. *)
Definition sample_observed : World :=
  mkWorld [mkVariable (Some [("a", VFun 0); ("b", VFun 3)]) (VInt 5)] [] [].

(** [V = Variable(value=5)] followed by [Bounds(V, 0, 10)]. *)
Definition sample_bounded : World :=
  final_state
    (new_Bounds (VVar 0) (VInt 0) (VInt 10)
       (final_state (new_Variable sample_body VNone (VInt 5) empty_world))).


(** ** Further vocabulary *)

Section ResultVocabulary.
Variable fn_body : nat -> list pyval -> pyval + exn.

(** What an observer that returns hands back when invoked with no
    argument: [enforce] returns [None]. *)
Definition observer_result (o : pyval) : pyval :=
  match o with
  | VFun f => match fn_body f [] with inl r => r | inr _ => VNone end
  | _ => VNone
  end.

(** A name the mapping knows, bound to an observer that returns. *)
Definition answers (vars : list PyVariable) (bnds : list Bounds) (d : dict pyval)
    (name : string) : Prop :=
  exists o, dict_get d name = Some o
            /\ leaf o = true
            /\ observer_raises fn_body vars bnds o = None.

End ResultVocabulary.

(** Both bounds are integers, in order. *)
Definition ordered (b : Bounds) : Prop :=
  exists lo hi,
    Bounds__minimum b = VInt lo /\ Bounds__maximum b = VInt hi /\ (lo <= hi)%Z.

(** [V = Variable(value=5)] followed by [Bounds(V, 10)]. *)
Definition sample_one_sided : World :=
  final_state
    (new_Bounds (VVar 0) (VInt 10) VNone
       (final_state (new_Variable sample_body VNone (VInt 5) empty_world))).

(** The tree path a derived name gives under a parent; a name that is not
    a string cannot be concatenated. *)
Definition path_under (parent_varname : string) (name : pyval) : option string :=
  match name with
  | VStr s => Some (tree_path parent_varname s)
  | _ => None
  end.

(** ** Sessions *)

(** The evaluation of a global name the module never binds: the module
    imports [typing.Iterable] under the name [IterableType] only, and it
    does not import [_tkinter]. *)
Definition unbound_global {S A} : M S A := raise NameError.

(** What [get_runningfile] can be given: [None], one extension, or a
    collection of extensions. *)
Inductive exempt_arg : Type :=
  | ExemptNone
  | ExemptStr (ext : string)
  | ExemptSet (exts : list string).

Section RunningFile.

(** [os.path.basename] and [os.path.splitext], and [sys.argv[0]]. *)
Variable basename : string -> string.
Variable splitext : string -> string * string.
Variable argv0 : string.

(** The three elements of the tuple handed to [any] are evaluated before
    [any] runs; the third one starts with the lookup of [Iterable]. *)
Definition get_runningfile {S} (exempt : exempt_arg) : M S string :=
  let fullname := basename argv0 in
  let '(filename, fileext) := splitext fullname in
  (let c1 := match exempt with ExemptNone => true | _ => false end in
   let c2 := match exempt with
             | ExemptStr ext => negb (String.eqb fileext ext)
             | _ => false
             end in
   c3 <- (unbound_global : M S bool) ;;
   if (c1 || c2 || c3)%bool then ret fullname else ret filename)%py.

(** [__Root.__init__]: the handle would come from [_tkinter.create]. *)
Definition Root___init__ (basename_arg : option string) (debugger : pyval)
  : M State unit :=
  (basename <- match basename_arg with
               | None => get_runningfile (ExemptSet [".py"; ".pyc"])
               | Some b => ret b
               end ;;
   handle <- (unbound_global : M State nat) ;;
   HasTcl_set_tk (Some handle) ;;;
   HasTclCommands___init__ [] ;;;
   (if negb (is_None debugger) then HasTcl_settrace debugger else ret tt) ;;;
   HasChildren_set_children (Some ∅))%py.

End RunningFile.

(** ** Construction of widgets *)

(** Constructing a widget involves two objects: the widget with what its
    methods see, and the object given as parent, with the names of the
    classes it is an instance of. *)
Record Family : Type := mkFamily {
  child : State;
  parent_node : Node;
  parent_bases : list string;
  widgetname_attr : option pyval
}.

Definition lift {A} (m : M State A) : M Family A :=
  fun fam =>
    match m (child fam) with
    | Return a st =>
        Return a (mkFamily st (parent_node fam) (parent_bases fam) (widgetname_attr fam))
    | Raise e st =>
        Raise e (mkFamily st (parent_node fam) (parent_bases fam) (widgetname_attr fam))
    end.

(** An attribute of the parent. *)
Definition parent_read {A} (field : Node -> slot A) : M Family (option A) :=
  fun fam =>
    match field (parent_node fam) with
    | Missing => Raise AttributeError fam
    | PyNone => Return None fam
    | Bound a => Return (Some a) fam
    end.

Definition put_parent_node (n : Node) : M Family unit :=
  modify (fun fam => mkFamily (child fam) n (parent_bases fam) (widgetname_attr fam)).

Definition put_widgetname (v : pyval) : M Family unit :=
  modify (fun fam => mkFamily (child fam) (parent_node fam) (parent_bases fam) (Some v)).

(** [isinstance(parent, C)] *)
Definition parent_isinstance (cls : string) : M Family bool :=
  fun fam => Return (existsb (String.eqb cls) (parent_bases fam)) fam.

(** [getroot()] without an argument: the single-dispatch wrapper needs a
    positional argument to select on. *)
Definition getroot_no_argument {S} : M S nat := raise TypeError.

(** [HasParent.__init__] *)
Definition HasParent___init__ (self : nat) (parent : option nat) : M Family unit :=
  (parent <- match parent with
             | None => getroot_no_argument
             | Some p => ret p
             end ;;
   owns <- parent_isinstance "HasChildren" ;;
   if negb owns then raise RuntimeError
   else
     (lift (HasParent_set_parent (Some parent)) ;;;
      p <- lift HasParent_parent ;;
      match p with
      | None => raise AttributeError
      | Some _ =>
          (children <- parent_read HasChildren__children ;;
           match children with
           | None => raise AttributeError
           | Some s =>
               (fam <- get ;;
                put_parent_node (with_children (parent_node fam) (Bound (s ∪ {[self]}))))
           end)
      end))%py.

Definition with_inst_do (n : Node) (v : option nat) : Node :=
  mkNode (class_name n) (HasTcl__tk n) (HasTcl__tcl_varname n)
    (HasTclCommands__tcl_commands n) (HasTclCommands__tcl_flags n)
    (HasTclCommands__flags n) (HasChildren__children n) (HasParent__parent n) v.

(** The handle [parent.do] calls into: the parent's own instance attribute
    when it has one, else its handle.  A parent whose handle is [None] has
    given the widget the handle [None] too, so that both the bound method
    and the widget's own [do] can only raise [AttributeError]. *)
Definition parent_do (p : Node) : option nat :=
  match inst_do p with
  | Some h => Some h
  | None => match HasTcl__tk p with Bound h => Some h | _ => None end
  end.

(** The loop that collects the flags of the configuration entries that
    are not callable: [flags.extend(self.flags[key])]. *)
Fixpoint collect_flags (kw : list (string * pyval)) (flags : list pyval)
  : M State (list pyval) :=
  match kw with
  | [] => ret flags
  | (key, value) :: rest =>
      if (callable value || all_callable value)%bool then collect_flags rest flags
      else
        (stored <- HasTclCommands_flags ;;
         match stored with
         | None => raise TypeError
         | Some d =>
             match dict_get d key with
             | None => raise KeyError
             | Some entry =>
                 (items <- py_iter entry ;; collect_flags rest (flags ++ items))
             end
         end)%py
  end.

(** [BareWidget.__init__] *)
Definition BareWidget___init__ (self : nat) (widgetname : pyval) (parent : option nat)
    (kw : list (string * pyval)) : M Family unit :=
  (HasParent___init__ self parent ;;;
   name <- lift (BareWidget_name kw) ;;
   let kw := dict_del kw "name" in
   has_tcl <- match parent with
              | None => ret false
              | Some _ => parent_isinstance "HasTcl"
              end ;;
   if negb has_tcl then raise RuntimeError
   else
     (tk <- parent_read HasTcl__tk ;;
      lift (HasTcl_set_tk tk) ;;;
      lift (HasTclCommands___init__ kw) ;;;
      flags <- lift (collect_flags kw []) ;;
      parent_varname <- parent_read HasTcl__tcl_varname ;;
      match parent_varname, name with
      | Some pv, VStr name =>
          (lift (HasTcl_set_tcl_varname (Some (tree_path pv name))) ;;;
           put_widgetname widgetname ;;;
           fam <- get ;;
           lift (n <- get_node ;; put_node (with_inst_do n (parent_do (parent_node fam)))) ;;;
           do <- lift getattr_do ;;
           varname <- lift HasTcl_tcl_varname ;;
           lift (do [VTuple (widgetname :: value_of_varname varname :: flags)]) ;;;
           lift (HasChildren_set_children (Some ∅)) ;;;
           lift (addinstance self))
      | _, _ => raise TypeError
      end))%py.

(** [Window.__init__] calls [BareWidget.__init__(self)] and leaves out the
    required [widgetname]. *)
Definition Window___init__ : M Family unit := raise TypeError.

(** ** The module's own test *)

(** The subclasses of [RuntimeError] among the exceptions. *)
Definition is_RuntimeError (e : exn) : bool :=
  match e with
  | RuntimeError | InstantiatedError _ | NotImplementedError => true
  | _ => false
  end.

(** [bounds.minimum <= n <= bounds.maximum] *)
Definition within (bounds : nat) (n : pyval) : M World bool :=
  (b <- load_Bounds bounds ;;
   lo_ok <- py_le (Bounds__minimum b) n ;;
   if lo_ok then (b <- load_Bounds bounds ;; py_le n (Bounds__maximum b))
   else ret false)%py.

Section SelfTest.
Variable fn_body : nat -> list pyval -> pyval + exn.

(** The loop of [test_bounds].  A failed [assert] leaves the function with
    an [AssertionError], which no handler of the loop catches: the loop
    returns [false] for it, [true] when it runs to its end. *)
Fixpoint test_bounds_loop (number bounds : nat) (ns : list Z) : M World bool :=
  match ns with
  | [] => ret true
  | n :: rest =>
      fun w =>
        match (Variable_set_value fn_body number (VInt n) ;;;
               within bounds (VInt n))%py w with
        | Return true w1 => test_bounds_loop number bounds rest w1
        | Return false w1 => Return false w1
        | Raise e w1 =>
            if is_RuntimeError e
            then match within bounds (VInt n) w1 with
                 | Return false w2 => test_bounds_loop number bounds rest w2
                 | Return true w2 => Return false w2
                 | Raise e' w2 => Raise e' w2
                 end
            else Raise e w1
        end
  end.

Definition test_bounds : M World bool :=
  (number <- new_Variable fn_body VNone (VInt 5) ;;
   bounds <- new_Bounds (VVar number) (VInt 0) (VInt 10) ;;
   test_bounds_loop number bounds (map Z.of_nat (seq 0 20)))%py.

(** [test()]: [True] when [test_bounds] returns, [False] on any
    exception. *)
Definition test (w : World) : bool :=
  match test_bounds w with
  | Return true _ => true
  | _ => false
  end.

End SelfTest.

(** ** Frames of the widget constructor *)

(** What the steps between the parent link and the registry constructor
    leave alone. *)
Definition untouched (fam fam' : Family) : Prop :=
  parent_node fam' = parent_node fam
  /\ instances (child fam') = instances (child fam)
  /\ native (child fam') = native (child fam)
  /\ HasTclCommands__flags (node (child fam')) = HasTclCommands__flags (node (child fam)).

Definition careful {A} (m : M Family A) : Prop :=
  forall fam, untouched fam (final_state (m fam)).

Definition doomed {A} (m : M Family A) : Prop :=
  forall fam,
    HasTclCommands__flags (node (child fam)) <> PyNone ->
    raises (m fam) /\ untouched fam (final_state (m fam)).

(** A [Button] being constructed below the session [.]: its private
    attributes have been bound to [None], and no statement has bound
    [__flags]. *)
Definition sample_family : Family :=
  mkFamily
    (mkState (mkNode "Button" PyNone PyNone PyNone PyNone Missing PyNone PyNone None)
       (Bound ∅) [1%nat] [])
    (node sample_root)
    ["__Root"; "HasTclCommands"; "HasTcl"; "HasChildren"; "object"] None.

(** The same construction below an object that owns no children, on a
    newly allocated [Button] (the class binds [_BareWidget__parent], not
    [_HasParent__parent]), and on a [Button] that already has a parent. *)
Definition sample_orphan : Family :=
  mkFamily (child sample_family) (node sample_root) ["Variable"; "HasObserver"; "object"] None.

Definition sample_allocated : Family :=
  mkFamily
    (mkState (mkNode "Button" Missing Missing PyNone PyNone Missing Missing Missing None)
       (Bound ∅) [1%nat] [])
    (node sample_root) (parent_bases sample_family) None.

Definition sample_adopted : Family :=
  mkFamily
    (mkState (with_parent (node (child sample_family)) (Bound 1%nat)) (Bound ∅) [1%nat] [])
    (node sample_root) (parent_bases sample_family) None.

(** * Properties *)

Local Open Scope Z_scope.

(** ** Ratio *)

Section RatioFacts.
Import Ratio.

Lemma opt_Z_eqb_refl v : opt_Z_eqb v v = true.
Proof. destruct v as [z|]; simpl; [apply Z.eqb_refl | reflexivity]. Qed.

Lemma opt_Z_eqb_eq a b : opt_Z_eqb a b = true -> a = b.
Proof.
  destruct a, b; simpl; try discriminate; auto.
  intros H. apply Z.eqb_eq in H. congruence.
Qed.

Lemma gcd_quotients n d :
  Z.gcd n d <> 0 -> Z.gcd (n / Z.gcd n d) (d / Z.gcd n d) = 1.
Proof.
  intros Hg. apply Z.gcd_div_gcd; [exact Hg | reflexivity].
Qed.

(** [reduce] on an integer pair with a non-zero divisor. *)
Lemma reduce_ok r n d :
  numerator r = Some n -> denominator r = Some d -> Z.gcd n d <> 0 ->
  reduce r = Return tt (mk (Some (n / Z.gcd n d)) (Some (d / Z.gcd n d)) (Some true)).
Proof.
  intros Hn Hd Hg. destruct r as [rn rd rf]. simpl in Hn, Hd. subst rn rd.
  apply Z.eqb_neq in Hg.
  unfold reduce, bind, get, gcd, floordiv, ret, set_numerator, set_denominator, modify.
  simpl. rewrite Hg. simpl.
  destruct (negb (Z.eqb (n / Z.gcd n d) n)); simpl; rewrite ?Hg; simpl;
    destruct (negb (Z.eqb (d / Z.gcd n d) d)); reflexivity.
Qed.

Lemma reduce_zero r :
  numerator r = Some 0 -> denominator r = Some 0 ->
  reduce r = Raise ZeroDivisionError r.
Proof.
  intros Hn Hd. destruct r as [rn rd rf]. simpl in Hn, Hd. subst rn rd.
  reflexivity.
Qed.

Lemma flag_sound_set_numerator r v :
  flag_sound r -> flag_sound (final_state (set_numerator v r)).
Proof.
  intros Hs. destruct r as [rn rd rf]. unfold set_numerator, flag_sound in *. simpl in *.
  destruct (opt_Z_eqb v rn) eqn:E; simpl.
  - apply opt_Z_eqb_eq in E. subst v. exact Hs.
  - discriminate.
Qed.

Lemma flag_sound_set_denominator r v :
  flag_sound r -> flag_sound (final_state (set_denominator v r)).
Proof.
  intros Hs. destruct r as [rn rd rf]. unfold set_denominator, flag_sound in *. simpl in *.
  destruct (opt_Z_eqb v rd) eqn:E; simpl.
  - apply opt_Z_eqb_eq in E. subst v. exact Hs.
  - discriminate.
Qed.

Lemma flag_sound_reduce r :
  flag_sound r -> flag_sound (final_state (reduce r)).
Proof.
  intros Hs. destruct r as [[n|] [d|] rf];
    try (unfold reduce, bind, get, gcd, raise; simpl; exact Hs).
  destruct (Z.eq_dec (Z.gcd n d) 0) as [Hz|Hnz].
  - unfold reduce, bind, get, gcd, floordiv, ret, raise. simpl.
    rewrite Hz. simpl. exact Hs.
  - rewrite (reduce_ok (mk (Some n) (Some d) rf) n d eq_refl eq_refl Hnz). simpl.
    intros _. exists (n / Z.gcd n d), (d / Z.gcd n d).
    repeat split. apply gcd_quotients; exact Hnz.
Qed.

Lemma ratio_final r :
  final_state (ratio r) = if py_not (reduced r) then final_state (reduce r) else r.
Proof.
  unfold ratio, bind, get. simpl.
  destruct (py_not (reduced r)).
  - destruct (reduce r) as [[] s|e s]; reflexivity.
  - reflexivity.
Qed.

Lemma reachable_flag_sound r : reachable r -> flag_sound r.
Proof.
  induction 1.
  - unfold new, init, flag_sound. destruct n as [n|], d as [d|]; simpl;
      unfold bind, set_numerator, set_denominator; simpl; discriminate.
  - apply flag_sound_set_numerator; assumption.
  - apply flag_sound_set_denominator; assumption.
  - apply flag_sound_reduce; assumption.
  - rewrite ratio_final. destruct (py_not (reduced r)); [apply flag_sound_reduce|]; assumption.
Qed.

Lemma exact_quotient n g : (g | n) -> g <> 0 -> n = g * (n / g).
Proof.
  intros [q Hq] Hg. subst n. rewrite Z.div_mul by exact Hg. lia.
Qed.

(** C10.  On every state a [Ratio] can reach: when numerator and
    denominator are both 0, reading [ratio] and calling [reduce()] raise
    [ZeroDivisionError] (the divisor is [gcd(0, 0) = 0]) and leave the
    object as it was; when the greatest common divisor of the two
    components is not 0, reading [ratio] returns the two floor quotients by
    it, and each component is exactly the divisor times its quotient. *)
Theorem ratio_zero_pair_raises_else_lowest_terms r n d :
  reachable r ->
  numerator r = Some n ->
  denominator r = Some d ->
  (n = 0 -> d = 0 ->
     ratio r = Raise ZeroDivisionError r /\ reduce r = Raise ZeroDivisionError r)
  /\ (Z.gcd n d <> 0 ->
      (exists r', ratio r = Return (Some (n / Z.gcd n d), Some (d / Z.gcd n d)) r')
      /\ n = Z.gcd n d * (n / Z.gcd n d)
      /\ d = Z.gcd n d * (d / Z.gcd n d)).
Proof.
  intros Hr Hn Hd. pose proof (reachable_flag_sound r Hr) as Hs. split.
  - intros -> ->. pose proof (reduce_zero r Hn Hd) as Hz. split; [|exact Hz].
    unfold ratio, bind, get.
    destruct (reduced r) as [[|]|] eqn:Hf; simpl; try (rewrite Hz; reflexivity).
    destruct (Hs Hf) as (n' & d' & Hn' & Hd' & Hg).
    rewrite Hn in Hn'. rewrite Hd in Hd'. injection Hn' as <-. injection Hd' as <-.
    discriminate Hg.
  - intros Hg. split; [|split].
    + unfold ratio, bind, get.
      destruct (reduced r) as [[|]|] eqn:Hf; simpl;
        try (rewrite (reduce_ok r n d Hn Hd Hg); simpl; eexists; reflexivity).
      destruct (Hs Hf) as (n' & d' & Hn' & Hd' & H1).
      rewrite Hn in Hn'. rewrite Hd in Hd'. injection Hn' as <-. injection Hd' as <-.
      rewrite H1, !Z.div_1_r, Hn, Hd. eexists; reflexivity.
    + apply exact_quotient; [apply Z.gcd_divide_l | exact Hg].
    + apply exact_quotient; [apply Z.gcd_divide_r | exact Hg].
Qed.

Lemma ratio_zero_pair_raises_else_lowest_terms_witness :
  reachable (new (Some 6) (Some (-4)))
  /\ (exists r', ratio (new (Some 6) (Some (-4))) = Return (Some 3, Some (-2)) r').
Proof.
  split; [apply reach_new|].
  exact (proj1 (proj2 (ratio_zero_pair_raises_else_lowest_terms
                         (new (Some 6) (Some (-4))) 6 (-4)
                         (reach_new _ _) eq_refl eq_refl)
                  ltac:(discriminate))).
Defined.

End RatioFacts.

(** ** Callback groups *)

Section CallableFacts.
Variable fn_body : nat -> list pyval -> pyval + exn.

Lemma call_VFun f args w :
  call fn_body (VFun f) args w =
    let w' := mkWorld (variables w) (bounds w) (calls w ++ [(VFun f, args)]) in
    match fn_body f args with
    | inl r => Return r w'
    | inr e => Raise e w'
    end.
Proof.
  simpl. unfold bind, log_call, modify. simpl.
  destruct (fn_body f args); reflexivity.
Qed.




Lemma bind_ret_r {S A} (m : M S A) s : bind m (fun a => ret a) s = m s.
Proof. unfold bind, ret. destruct (m s); reflexivity. Qed.

Lemma Callable_loop_app l1 : forall l2 a w,
  Callable_loop fn_body (l1 ++ l2) a w =
    match Callable_loop fn_body l1 a w with
    | Return r w' => Callable_loop fn_body l2 r w'
    | Raise e w' => Raise e w'
    end.
Proof.
  induction l1 as [|f l1 IH]; intros l2 a w; [reflexivity|].
  cbn [app Callable_loop]. unfold bind.
  match goal with |- match ?m w with _ => _ end = _ => destruct (m w) as [r w1|e w1] end;
    [apply IH | reflexivity].
Qed.

(** The recursion of [call] on a group is the loop over
    [reversed(self.functions)]. *)
Lemma call_group fs args w :
  call fn_body (VGroup fs) args w = Callable___call__ fn_body fs args w.
Proof.
  unfold Callable___call__. revert w. induction fs as [|f later IH]; intros w; [reflexivity|].
  cbn [rev]. rewrite Callable_loop_app, <- IH.
  change (call fn_body (VGroup (f :: later)) args w)
    with (bind (call fn_body (VGroup later) args)
            (fun a => if is_None a then call fn_body f []
                      else bind (py_iter a) (fun xs => call fn_body f xs)) w).
  unfold bind at 1. destruct (call fn_body (VGroup later) args w) as [r w1|e w1];
    [|reflexivity].
  cbn [Callable_loop]. rewrite bind_ret_r. reflexivity.
Qed.


End CallableFacts.



(** ** Reactive variables *)

Section ReactiveFacts.
Variable fn_body : nat -> list pyval -> pyval + exn.

Lemma logged_nil w : logged w [] = w.
Proof. destruct w. unfold logged. simpl. rewrite app_nil_r. reflexivity. Qed.

Lemma logged_logged w l1 l2 : logged (logged w l1) l2 = logged w (l1 ++ l2).
Proof. unfold logged. simpl. rewrite app_assoc. reflexivity. Qed.

(** [enforce] reads the objects and leaves the world as it is. *)
Lemma Bounds_enforce_frame b w :
  Bounds_enforce b w =
    match enforce_raises (variables w) (bounds w) b with
    | None => Return tt w
    | Some e => Raise e w
    end.
Proof.
  cbv [enforce_raises Bounds_enforce bind load_Bounds getattr_value load_Variable
       ret raise variables bounds py_le].
  destruct w as [vars bnds cs].
  destruct (bnds !! b) as [[lo hi en]|]; [|reflexivity].
  cbv [Bounds__enforces Bounds__minimum Bounds__maximum].
  destruct en; try reflexivity.
  destruct (vars !! addr) as [[obs cur]|]; [|reflexivity].
  cbv [Variable__value].
  destruct lo, cur; try reflexivity.
  - destruct (z <=? z0)%Z; [|reflexivity].
    destruct hi; try reflexivity.
    destruct (z0 <=? z1)%Z; reflexivity.
  - destruct (String.leb s s0); [|reflexivity].
    destruct hi; try reflexivity.
    destruct (String.leb s0 s1); reflexivity.
Qed.

Lemma call_leaf o w :
  leaf o = true ->
  match observer_raises fn_body (variables w) (bounds w) o with
  | None => exists r, call fn_body o [] w = Return r (logged w [(o, [])])
  | Some e => call fn_body o [] w = Raise e (logged w [(o, [])])
  end.
Proof.
  destruct o; try discriminate; intros _.
  - rewrite call_VFun. simpl. destruct (fn_body f []); [eexists|]; reflexivity.
  - simpl. unfold bind, log_call, modify. simpl.
    rewrite Bounds_enforce_frame. simpl.
    destruct (enforce_raises (variables w) (bounds w) self); [|eexists]; reflexivity.
Qed.

Lemma call_all_trace d : forall result w,
  forallb leaf (map snd d) = true ->
  match first_raise fn_body (variables w) (bounds w) d with
  | None =>
      exists res, call_all fn_body d result w
                  = Return res (logged w (no_args (invoked fn_body (variables w) (bounds w) d)))
  | Some e =>
      call_all fn_body d result w
        = Raise e (logged w (no_args (invoked fn_body (variables w) (bounds w) d)))
  end.
Proof.
  induction d as [|[name o] d IH]; intros result w Hl.
  - simpl. rewrite logged_nil. eexists; reflexivity.
  - simpl in Hl. apply andb_prop in Hl as [Ho Hd].
    pose proof (call_leaf o w Ho) as Hc. simpl. unfold bind.
    destruct (observer_raises fn_body (variables w) (bounds w) o) as [e|].
    + rewrite Hc. reflexivity.
    + destruct Hc as [r Hc]. rewrite Hc.
      specialize (IH (dict_set result name r) (logged w [(o, [])]) Hd).
      simpl in IH.
      destruct (first_raise fn_body (variables w) (bounds w) d) as [e|].
      * rewrite IH, logged_logged. reflexivity.
      * destruct IH as [res IH]. exists res. rewrite IH, logged_logged. reflexivity.
Qed.


(** The setter: the value is stored first, the broadcast follows. *)
Lemma Variable_set_value_eq w a v d val :
  variables w !! a = Some v ->
  Variable__observers v = Some d ->
  forallb leaf (map snd d) = true ->
  let vars' := <[a:=mkVariable (Some d) val]> (variables w) in
  let w' := mkWorld vars' (bounds w)
              (calls w ++ no_args (invoked fn_body vars' (bounds w) d)) in
  Variable_set_value fn_body a val w =
    match first_raise fn_body vars' (bounds w) d with
    | None => Return tt w'
    | Some e => Raise e w'
    end.
Proof.
  intros Hv Hd Hl vars' w'.
  assert (vars' !! a = Some (mkVariable (Some d) val)) as Hv'.
  { apply list_lookup_insert_eq. eapply lookup_lt_Some; exact Hv. }
  unfold Variable_set_value, bind, load_Variable, store_Variable, modify,
    getattr_observers, load_Variable, ret.
  rewrite Hv. simpl. rewrite Hd. fold vars'. unfold bind, load_Variable. simpl.
  rewrite Hv'. simpl. destruct d as [|kv d'].
  - simpl. subst w'. simpl. rewrite app_nil_r. reflexivity.
  - unfold Observers___call__.
    pose proof (call_all_trace (kv :: d') [] (mkWorld vars' (bounds w) (calls w)) Hl) as Ht.
    simpl variables in Ht. simpl bounds in Ht.
    destruct (first_raise fn_body vars' (bounds w) (kv :: d')) as [e|].
    + rewrite Ht. reflexivity.
    + destruct Ht as [res Ht]. rewrite Ht. reflexivity.
Qed.


(** The constructor's own assignment finds no observer yet. *)
Lemma new_Variable_initial_write value w :
  is_None value = false ->
  new_Variable fn_body VNone value w
    = Return (length (variables w))
        (mkWorld (variables w ++ [mkVariable (Some []) value]) (bounds w) (calls w)).
Proof.
  intros Hn. unfold new_Variable, bind, get, put, ret. simpl.
  unfold Variable___init__, HasObserver___init__, HasObserver_set_observers, bind,
    load_Variable. simpl.
  rewrite lookup_app_r by lia. rewrite Nat.sub_diag. simpl.
  unfold store_Variable, modify. simpl. rewrite Hn. unfold ret. simpl.
  unfold Variable_set_value, bind, load_Variable, store_Variable, modify,
    getattr_observers, load_Variable, bind. simpl.
  rewrite !insert_app_r_alt by lia. rewrite Nat.sub_diag. simpl.
  rewrite lookup_app_r by lia. rewrite Nat.sub_diag. simpl.
  rewrite !insert_app_r_alt by lia. rewrite Nat.sub_diag. simpl.
  rewrite lookup_app_r by lia. rewrite Nat.sub_diag. simpl. reflexivity.
Qed.

End ReactiveFacts.



(** ** Bounds *)

Section BoundsFacts.
Variable fn_body : nat -> list pyval -> pyval + exn.

Lemma enforce_raises_int vars bnds a b obs lo hi x :
  vars !! a = Some (mkVariable obs (VInt x)) ->
  bnds !! b = Some (mkBounds (VInt lo) (VInt hi) (VVar a)) ->
  enforce_raises vars bnds b
    = if ((lo <=? x) && (x <=? hi))%bool then None else Some RuntimeError.
Proof.
  intros Hv Hb.
  cbv [enforce_raises Bounds_enforce bind load_Bounds getattr_value load_Variable
       ret raise variables bounds py_le].
  rewrite Hb. cbv [Bounds__enforces Bounds__minimum Bounds__maximum].
  rewrite Hv. cbv [Variable__value].
  destruct (lo <=? x); [|reflexivity]. destruct (x <=? hi); reflexivity.
Qed.

Lemma enforce_dec (o : pyval) (b : nat) : {o = VEnforce b} + {o <> VEnforce b}.
Proof.
  destruct o as [ | | | | | | |b'| ]; try (right; discriminate).
  destruct (Nat.eq_dec b' b) as [->|Hne]; [left; reflexivity|].
  right. intros [= ->]. contradiction.
Qed.

Lemma first_raise_quiet vars bnds d :
  (forall o, In o (map snd d) -> observer_raises fn_body vars bnds o = None) ->
  first_raise fn_body vars bnds d = None.
Proof.
  induction d as [|[name o] d IH]; simpl; intros Hq; [reflexivity|].
  rewrite (Hq o) by (left; reflexivity). apply IH. intros o' Hin. apply Hq. right. exact Hin.
Qed.

(** When [enforce] is the only observer that can raise, the broadcast ends
    as [enforce] does. *)
Lemma first_raise_enforce vars bnds b d :
  In (VEnforce b) (map snd d) ->
  (forall o, In o (map snd d) -> o <> VEnforce b ->
             observer_raises fn_body vars bnds o = None) ->
  first_raise fn_body vars bnds d = enforce_raises vars bnds b.
Proof.
  induction d as [|[name o] d IH]; simpl; intros Hin Hq; [contradiction|].
  destruct (enforce_dec o b) as [->|Hne].
  - simpl. destruct (enforce_raises vars bnds b) eqn:He; [reflexivity|].
    apply first_raise_quiet. intros o Ho.
    destruct (enforce_dec o b) as [->|Hne]; [exact He|].
    apply Hq; [right; exact Ho | exact Hne].
  - rewrite (Hq o) by (auto; left; reflexivity).
    destruct Hin as [Hin|Hin]; [congruence|].
    apply IH; [exact Hin|]. intros o' Ho'. apply Hq. right. exact Ho'.
Qed.

(** C5.  With a [Bounds] of interval [lo, hi] among the observers of V
    (the other observers returning normally): a write of an integer [x]
    leaves [V.value == x] in every case; it returns normally when
    [lo <= x <= hi] and raises [RuntimeError] otherwise, the value already
    stored. *)
Theorem bounds_write_inside_returns_outside_raises w a b v d lo hi x :
  variables w !! a = Some v ->
  Variable__observers v = Some d ->
  bounds w !! b = Some (mkBounds (VInt lo) (VInt hi) (VVar a)) ->
  forallb leaf (map snd d) = true ->
  In (VEnforce b) (map snd d) ->
  (forall o, In o (map snd d) -> o <> VEnforce b ->
     observer_raises fn_body (<[a:=mkVariable (Some d) (VInt x)]> (variables w))
       (bounds w) o = None) ->
  let o := Variable_set_value fn_body a (VInt x) w in
  getattr_value (VVar a) (final_state o) = Return (VInt x) (final_state o)
  /\ (lo <= x <= hi -> exists w', o = Return tt w')
  /\ (~ lo <= x <= hi -> exists w', o = Raise RuntimeError w').
Proof.
  intros Hv Hd Hb Hl Hin Hq o. subst o.
  set (vars' := <[a:=mkVariable (Some d) (VInt x)]> (variables w)) in *.
  assert (vars' !! a = Some (mkVariable (Some d) (VInt x))) as Hv'.
  { apply list_lookup_insert_eq. eapply lookup_lt_Some; exact Hv. }
  rewrite (Variable_set_value_eq fn_body w a v d (VInt x) Hv Hd Hl). fold vars'.
  rewrite (first_raise_enforce vars' (bounds w) b d Hin Hq).
  rewrite (enforce_raises_int vars' (bounds w) a b (Some d) lo hi x Hv' Hb).
  destruct (lo <=? x) eqn:E1; [destruct (x <=? hi) eqn:E2|]; simpl.
  - unfold getattr_value, bind, load_Variable. simpl. rewrite Hv'.
    repeat split; [eexists; reflexivity | lia].
  - unfold getattr_value, bind, load_Variable. simpl. rewrite Hv'.
    repeat split; [lia | eexists; reflexivity].
  - unfold getattr_value, bind, load_Variable. simpl. rewrite Hv'.
    repeat split; [lia | eexists; reflexivity].
Qed.

(** *** Construction *)

Lemma bind_raises_l {S A B} (m : M S A) (k : A -> M S B) s :
  raises (m s) -> raises (bind m k s).
Proof. intros (e & s' & H). unfold bind. rewrite H. exists e, s'. reflexivity. Qed.

Lemma bind_raises_r {S A B} (m : M S A) (k : A -> M S B) s :
  (forall a s', m s = Return a s' -> raises (k a s')) -> raises (bind m k s).
Proof.
  intros H. unfold bind. destruct (m s) as [a s'|e s'].
  - apply H. reflexivity.
  - exists e, s'. reflexivity.
Qed.

Lemma Bounds_set_minimum_post self val w w' :
  Bounds_set_minimum self val w = Return tt w' ->
  exists b', bounds w' !! self = Some b' /\ Bounds__minimum b' = val.
Proof.
  unfold Bounds_set_minimum, bind, load_Bounds.
  destruct (bounds w !! self) as [b|] eqn:Hb; [|discriminate].
  destruct (getattr_value (Bounds__enforces b) w) as [cur w1|] eqn:Hg; [|discriminate].
  assert (w1 = w) as ->.
  { unfold getattr_value, bind, load_Variable, ret in Hg.
    destruct (Bounds__enforces b); try discriminate.
    destruct (variables w !! addr); [|discriminate]. congruence. }
  destruct (negb (isinstance val (type_of cur))); [discriminate|].
  destruct (negb (is_None (Bounds__maximum b))).
  - unfold py_lt. destruct (Bounds__maximum b), val; try discriminate;
      unfold ret; simpl;
      match goal with |- context [if ?c then _ else _] => destruct c end;
      try discriminate; unfold store_Bounds, modify; intros [= <-]; simpl;
      (eexists; split; [apply list_lookup_insert_eq; eapply lookup_lt_Some; exact Hb
                       | reflexivity]).
  - unfold ret, store_Bounds, modify. simpl. intros [= <-]. simpl.
    eexists; split; [apply list_lookup_insert_eq; eapply lookup_lt_Some; exact Hb
                    | reflexivity].
Qed.

Lemma Bounds_set_maximum_inverted self b lo hi w :
  bounds w !! self = Some b ->
  Bounds__minimum b = VInt lo ->
  hi < lo ->
  raises (Bounds_set_maximum self (VInt hi) w).
Proof.
  intros Hb Hmin Hlt. unfold Bounds_set_maximum.
  apply bind_raises_r. intros b0 w0 H0.
  unfold load_Bounds in H0. rewrite Hb in H0. injection H0 as <- <-.
  apply bind_raises_r. intros cur w1 _.
  destruct (negb (isinstance (VInt hi) (type_of cur))); [eexists _, _; reflexivity|].
  rewrite Hmin. simpl. unfold bind, ret.
  apply Z.ltb_lt in Hlt. rewrite Hlt. eexists _, _; reflexivity.
Qed.

(** C9.  Whatever is passed as the observed object, whatever its current
    value, [Bounds(obj, lo, hi)] with integers [lo > hi] raises. *)
Theorem bounds_with_inverted_interval_raises w obj lo hi :
  lo > hi ->
  exists e w', new_Bounds obj (VInt lo) (VInt hi) w = Raise e w'.
Proof.
  intros Hlt. change (raises (new_Bounds obj (VInt lo) (VInt hi) w)).
  unfold new_Bounds.
  apply bind_raises_r. intros w0 s0 _.
  apply bind_raises_r. intros [] s1 _.
  apply bind_raises_l.
  unfold Bounds___init__.
  destruct (negb (isinstance obj TVariable)); [eexists _, _; reflexivity|].
  apply bind_raises_r. intros b0 s2 _.
  apply bind_raises_r. intros [] s3 _.
  apply bind_raises_r. intros b1 s4 _.
  apply bind_raises_r. intros obs s5 _.
  apply bind_raises_r. intros [] s6 _.
  simpl negb. cbv iota.
  apply bind_raises_r. intros [] s7 Hmin.
  destruct (Bounds_set_minimum_post _ _ _ _ Hmin) as (b' & Hb' & Hlo).
  apply (Bounds_set_maximum_inverted _ b' lo hi s7 Hb' Hlo). lia.
Qed.

End BoundsFacts.

Lemma bounds_write_inside_returns_outside_raises_witness :
  bounds sample_bounded !! 0%nat = Some (mkBounds (VInt 0) (VInt 10) (VVar 0))
  /\ (exists w', Variable_set_value sample_body 0 (VInt 7) sample_bounded = Return tt w')
  /\ (exists w', Variable_set_value sample_body 0 (VInt 15) sample_bounded
                  = Raise RuntimeError w')
  /\ getattr_value (VVar 0)
       (final_state (Variable_set_value sample_body 0 (VInt 15) sample_bounded))
     = Return (VInt 15)
         (final_state (Variable_set_value sample_body 0 (VInt 15) sample_bounded)).
Proof.
  assert (forall x o, In o (map snd [("0", VEnforce 0)]) -> o <> VEnforce 0 ->
            observer_raises sample_body
              (<[0%nat:=mkVariable (Some [("0", VEnforce 0)]) (VInt x)]>
                 (variables sample_bounded))
              (bounds sample_bounded) o = None) as Hq.
  { intros x o [<-|[]] Hne. contradiction. }
  split; [reflexivity|]. split; [|split].
  - apply (proj1 (proj2 (bounds_write_inside_returns_outside_raises sample_body
             sample_bounded 0 0 _ _ 0 10 7 eq_refl eq_refl eq_refl eq_refl
             (or_introl eq_refl) (Hq 7)))).
    split; discriminate.
  - apply (proj2 (proj2 (bounds_write_inside_returns_outside_raises sample_body
             sample_bounded 0 0 _ _ 0 10 15 eq_refl eq_refl eq_refl eq_refl
             (or_introl eq_refl) (Hq 15)))).
    intros [_ H]. apply H. reflexivity.
  - exact (proj1 (bounds_write_inside_returns_outside_raises sample_body
             sample_bounded 0 0 _ _ 0 10 15 eq_refl eq_refl eq_refl eq_refl
             (or_introl eq_refl) (Hq 15))).
Defined.

Lemma bounds_with_inverted_interval_raises_witness :
  10 > 0 /\ exists e w', new_Bounds (VVar 0) (VInt 10) (VInt 0) sample_observed = Raise e w'.
Proof.
  split; [reflexivity|].
  apply (bounds_with_inverted_interval_raises sample_observed (VVar 0) 10 0). reflexivity.
Defined.

(** On an integer variable the exception is the value error of the
    [maximum] setter. *)
Example inverted_interval_value_error :
  exists w', new_Bounds (VVar 0) (VInt 10) (VInt 0) sample_observed = Raise ValueError w'.
Proof. eexists. vm_compute. reflexivity. Qed.

(** ** Write-once properties *)

Section WriteOnceFacts.
Context {A B : Type}.
Variable guard : Node -> slot A.
Variable varname : Node -> string.
Variable store : Node -> slot B -> Node.

(** A setter whose guard finds a value refuses and changes nothing. *)
Lemma write_once_guarded st x val :
  guard (node st) = Bound x ->
  write_once guard varname store val st
    = Raise (InstantiatedError (varname (node st))) st.
Proof.
  intros H. unfold write_once, bind, get_node. rewrite H. reflexivity.
Qed.

Lemma write_once_missing st val :
  guard (node st) = Missing ->
  write_once guard varname store val st = Raise AttributeError st.
Proof.
  intros H. unfold write_once, bind, get_node. rewrite H. reflexivity.
Qed.

Lemma write_once_unset st val :
  guard (node st) = PyNone ->
  write_once guard varname store val st
    = Return tt (mkState (store (node st) (of_py val)) (instances st) (roots st) (native st)).
Proof.
  intros H. unfold write_once, bind, get_node. rewrite H. reflexivity.
Qed.

End WriteOnceFacts.

(** The setters that test the attribute they store. *)
Lemma tk_reassignment st h val :
  HasTcl__tk (node st) = Bound h ->
  exists msg, HasTcl_set_tk val st = Raise (InstantiatedError msg) st.
Proof. intros H. eexists. apply write_once_guarded with (x := h). exact H. Qed.

Lemma tcl_varname_reassignment st s val :
  HasTcl__tcl_varname (node st) = Bound s ->
  exists msg, HasTcl_set_tcl_varname val st = Raise (InstantiatedError msg) st.
Proof. intros H. eexists. apply write_once_guarded with (x := s). exact H. Qed.

Lemma commands_reassignment st d val :
  HasTclCommands__tcl_commands (node st) = Bound d ->
  exists msg, HasTclCommands_set_commands val st = Raise (InstantiatedError msg) st.
Proof. intros H. eexists. apply write_once_guarded with (x := d). exact H. Qed.

Lemma children_reassignment st s val :
  HasChildren__children (node st) = Bound s ->
  exists msg, HasChildren_set_children val st = Raise (InstantiatedError msg) st.
Proof. intros H. eexists. apply write_once_guarded with (x := s). exact H. Qed.

Lemma parent_reassignment st p val :
  HasParent__parent (node st) = Bound p ->
  exists msg, HasParent_set_parent val st = Raise (InstantiatedError msg) st.
Proof. intros H. eexists. apply write_once_guarded with (x := p). exact H. Qed.

(** The [flags] setter does not look at the stored mapping: with
    [__flags] unbound it raises [AttributeError] whatever is stored, and
    were [__flags] bound to [None] it would replace a stored mapping. *)
Lemma flags_setter_ignores_stored st val :
  HasTclCommands__flags (node st) = Missing ->
  HasTclCommands_set_flags val st = Raise AttributeError st.
Proof. apply write_once_missing. Qed.

Lemma flags_setter_overwrites st d val :
  HasTclCommands__flags (node st) = PyNone ->
  HasTclCommands__tcl_flags (node st) = Bound d ->
  HasTclCommands__tcl_flags (node (final_state (HasTclCommands_set_flags val st)))
    = of_py val.
Proof.
  intros H _. unfold HasTclCommands_set_flags. rewrite write_once_unset by exact H.
  reflexivity.
Qed.

(** The body registered for [str] stores the marker-prefixed key followed
    by the tokens; the dispatcher never selects it. *)
Lemma addflag_str_stores st d key args :
  HasTclCommands__tcl_flags (node st) = Bound d ->
  addflag_str key args st
  = Return key
      (mkState (with_tcl_flags (node st)
                  (Bound (dict_set d key (VTuple (VStr ("-" ++ key) :: args)))))
         (instances st) (roots st) (native st)).
Proof.
  intros Hf. unfold addflag_str, HasTclCommands_flags, read, bind, get_node.
  rewrite Hf. reflexivity.
Qed.

Lemma addflag_unsupported key args st :
  addflag key args st = Raise NotImplementedError st.
Proof. reflexivity. Qed.

(** C6 (the code departs from it).  On a node whose flags mapping is
    stored, assigning [flags] again raises [AttributeError], not the
    re-instantiation error: the setter reads [__flags], which nothing
    binds, where its siblings read the attribute they store. *)
Theorem flags_reassignment_raises_AttributeError :
  HasTclCommands__tcl_flags node_with_flags
    = Bound [("text", VTuple [VStr "-text"; VStr "hi"])]
  /\ HasTclCommands_set_flags (Some []) (state_of node_with_flags)
     = Raise AttributeError (state_of node_with_flags).
Proof. split; reflexivity. Qed.

(** ** The registry constructor *)

Lemma init_loop_unbound items st :
  items <> [] ->
  HasTclCommands_init_loop items None st = Raise UnboundLocalError st.
Proof. destruct items as [|[key vaue] rest]; [contradiction|reflexivity]. Qed.

(** With [value] bound the loop would still stop at its first entry: both
    registration methods dispatch on [self]. *)
Lemma init_loop_unsupported items value st :
  items <> [] ->
  HasTclCommands_init_loop items (Some value) st = Raise NotImplementedError st.
Proof.
  destruct items as [|[key vaue] rest]; [contradiction|]. intros _. simpl.
  match goal with |- context [isinstance ?v TCallable] => destruct (isinstance v TCallable) end;
    reflexivity.
Qed.

Lemma init_raises_on_flags kw st :
  HasTclCommands__tcl_commands (node st) = PyNone ->
  HasTclCommands__flags (node st) = Missing ->
  HasTclCommands___init__ kw st
    = Raise AttributeError
        (mkState (with_commands (node st) (Bound [])) (instances st) (roots st) (native st)).
Proof.
  intros Hc Hf. unfold HasTclCommands___init__, bind.
  unfold HasTclCommands_set_commands. rewrite write_once_unset by exact Hc.
  unfold HasTclCommands_set_flags. rewrite write_once_missing; [reflexivity|].
  destruct st as [[] ? ? ?]. exact Hf.
Qed.

(** C7 (the code departs from it).  [HasTclCommands(text="hi")] raises
    [AttributeError] at the assignment of [flags]; the flags mapping is
    still [None] and holds no entry for [text]. *)
Theorem registry_constructor_stores_no_flag :
  let o := HasTclCommands___init__ [("text", VStr "hi")] (state_of fresh_HasTclCommands) in
  (exists st, o = Raise AttributeError st)
  /\ HasTclCommands__tcl_flags (node (final_state o)) = PyNone.
Proof. split; [eexists|]; reflexivity. Qed.

(** ** Destructors *)

Lemma bind_eq {S A B} (m : M S A) (k : A -> M S B) s a s' :
  m s = Return a s' -> bind m k s = k a s'.
Proof. intros H. unfold bind. rewrite H. reflexivity. Qed.

Lemma bind_raise_eq {S A B} (m : M S A) (k : A -> M S B) s e s' :
  m s = Raise e s' -> bind m k s = Raise e s'.
Proof. intros H. unfold bind. rewrite H. reflexivity. Qed.

Lemma with_commands_idem n a b : with_commands (with_commands n a) b = with_commands n b.
Proof. destruct n; reflexivity. Qed.

Lemma with_commands_same n d :
  HasTclCommands__tcl_commands n = d -> with_commands n d = n.
Proof. destruct n; simpl; intros <-; reflexivity. Qed.

Lemma dict_mem_head {V} k (v : V) d : dict_mem ((k, v) :: d) k = true.
Proof. unfold dict_mem. simpl. rewrite String.eqb_refl. reflexivity. Qed.

Lemma dict_del_head {V} k (v : V) d : dict_del ((k, v) :: d) k = d.
Proof. simpl. rewrite String.eqb_refl. reflexivity. Qed.

Lemma teardown_step st h k v d :
  HasTcl__tk (node st) = Bound h ->
  HasTclCommands__tcl_commands (node st) = Bound ((k, v) :: d) ->
  (commands_pop k ;;; HasTcl_deletecommand k)%py st
  = Return tt (mkState (with_commands (node st) (Bound d)) (instances st) (roots st)
                 (native st ++ [Ndeletecommand h k])).
Proof.
  intros Htk Hc.
  assert (HasTcl__tk (with_commands (node st) (Bound d)) = Bound h) as Htk'.
  { destruct (node st); exact Htk. }
  unfold commands_pop, HasTclCommands_commands, read, bind, get_node.
  rewrite Hc. cbn iota beta. unfold ret at 1. rewrite dict_mem_head, dict_del_head.
  cbn [negb]. cbn iota. unfold put_node, modify. cbn iota beta.
  unfold HasTcl_deletecommand, the_handle, HasTcl_tk, read, bind, get_node.
  cbn [node]. rewrite Htk'. reflexivity.
Qed.

(** The loop of [HasTclCommands.__del__]: one delete-command per key, in
    the order of the mapping, which ends up empty. *)
Lemma teardown_loop d : forall st h,
  HasTcl__tk (node st) = Bound h ->
  HasTclCommands__tcl_commands (node st) = Bound d ->
  for_each (keys d)
    (fun command => (commands_pop command ;;; HasTcl_deletecommand command)%py) st
  = Return tt (mkState (with_commands (node st) (Bound [])) (instances st) (roots st)
                 (native st ++ map (Ndeletecommand h) (keys d))).
Proof.
  induction d as [|[k v] d IH]; intros st h Htk Hc.
  - cbn [keys map for_each]. unfold ret.
    rewrite app_nil_r, (with_commands_same _ _ Hc).
    destruct st; reflexivity.
  - cbn [keys map fst for_each]. unfold bind at 1.
    rewrite (teardown_step st h k v d Htk Hc). fold (keys d).
    rewrite (IH _ h); cbn [node instances roots native].
    + rewrite with_commands_idem, <- app_assoc. reflexivity.
    + destruct (node st); exact Htk.
    + destruct (node st); reflexivity.
Qed.

Lemma tuple_of_commands_eq st d :
  HasTclCommands__tcl_commands (node st) = Bound d ->
  tuple_of_commands st = Return (keys d) st.
Proof.
  intros Hc. unfold tuple_of_commands, HasTclCommands_commands, read, bind, get_node.
  rewrite Hc. reflexivity.
Qed.

Lemma getattr_do_eq st h args :
  HasTcl__tk (node st) = Bound h ->
  exists do, getattr_do st = Return do st
    /\ do args st = Return tt (mkState (node st) (instances st) (roots st)
                                (native st ++ [Ncall (do_handle (node st) h) args])).
Proof.
  intros Htk. unfold getattr_do, bind, get_node, do_handle.
  destruct (inst_do (node st)) as [hd|]; eexists; (split; [reflexivity|]).
  - reflexivity.
  - unfold HasTcl_do, the_handle, HasTcl_tk, read, bind, get_node. rewrite Htk.
    reflexivity.
Qed.

Lemma HasTcl_tcl_varname_eq st n :
  HasTcl__tcl_varname (node st) = Bound n ->
  HasTcl_tcl_varname st = Return (Some n) st.
Proof.
  intros Hn. unfold HasTcl_tcl_varname, read, bind, get_node. rewrite Hn. reflexivity.
Qed.

Lemma HasTclCommands_del_eq st h n d :
  HasTcl__tk (node st) = Bound h ->
  HasTcl__tcl_varname (node st) = Bound n ->
  HasTclCommands__tcl_commands (node st) = Bound d ->
  HasTclCommands___del__ st
  = Return tt (mkState (with_commands (node st) (Bound [])) (instances st) (roots st)
                 (native st ++ map (Ndeletecommand h) (keys d)
                    ++ [Ncall (do_handle (node st) h) [VStr TCL_DESTROY; VStr n]])).
Proof.
  intros Htk Hn Hc.
  set (st1 := mkState (with_commands (node st) (Bound [])) (instances st) (roots st)
                (native st ++ map (Ndeletecommand h) (keys d))).
  assert (HasTcl__tcl_varname (node st1) = Bound n) as Hn1.
  { subst st1. cbn [node]. destruct (node st); exact Hn. }
  assert (HasTcl__tk (node st1) = Bound h) as Htk1.
  { subst st1. cbn [node]. destruct (node st); exact Htk. }
  assert (do_handle (node st1) h = do_handle (node st) h) as Hdo.
  { subst st1. cbn [node]. destruct (node st); reflexivity. }
  destruct (getattr_do_eq st1 h [VStr TCL_DESTROY; VStr n] Htk1) as (do & Hget & Hrun).
  unfold HasTclCommands___del__.
  rewrite (bind_eq _ _ _ _ _ (tuple_of_commands_eq st d Hc)).
  rewrite (bind_eq _ _ _ _ _ (teardown_loop d st h Htk Hc)).
  fold st1. rewrite (bind_eq _ _ _ _ _ Hget).
  rewrite (bind_eq _ _ _ _ _ (HasTcl_tcl_varname_eq st1 n Hn1)).
  cbn [value_of_varname]. rewrite Hrun, Hdo. subst st1. cbn [node instances roots native].
  rewrite <- app_assoc. reflexivity.
Qed.














Lemma delinstance_tracked self st s :
  instances st = Bound s -> self ∈ s ->
  delinstance self st
  = Return tt (mkState (node st) (Bound (s ∖ {[self]})) (roots st) (native st)).
Proof.
  intros Hs Hin. unfold delinstance, getinstances, bind. rewrite Hs.
  rewrite decide_True by exact Hin. reflexivity.
Qed.

Lemma delinstance_untracked self st s :
  instances st = Bound s -> self ∉ s ->
  delinstance self st = Raise KeyError st.
Proof.
  intros Hs Hin. unfold delinstance, getinstances, bind. rewrite Hs.
  rewrite decide_False by exact Hin. reflexivity.
Qed.






(** ** Names *)

Lemma append_cancel_l (p a b : string) : p ++ a = p ++ b -> a = b.
Proof.
  induction p as [|c p IH]; simpl; intros H; [exact H|].
  injection H as H. apply IH. exact H.
Qed.

Lemma append_empty_r (s : string) : s ++ EmptyString = s.
Proof.
  induction s as [|c s IH]; [reflexivity|].
  change (String c (s ++ EmptyString) = String c s). rewrite IH. reflexivity.
Qed.

Lemma to_uint_nonnil n : Nat.to_uint n <> Decimal.Nil.
Proof.
  rewrite <- (DecimalNat.Unsigned.of_to n) at 1.
  rewrite DecimalNat.Unsigned.to_of. apply DecimalFacts.unorm_nonnil.
Qed.

Lemma str_of_nat_inj n m : str_of_nat n = str_of_nat m -> n = m.
Proof.
  unfold str_of_nat. intros H. apply DecimalNat.Unsigned.to_uint_inj.
  assert (Some (Nat.to_uint n) = Some (Nat.to_uint m)) as E.
  { rewrite <- !NilEmpty.usu. rewrite H. reflexivity. }
  injection E as E. exact E.
Qed.

Lemma str_of_nat_nonempty n : str_of_nat n <> EmptyString.
Proof.
  unfold str_of_nat. intros H.
  pose proof (NilEmpty.usu (Nat.to_uint n)) as E. rewrite H in E. simpl in E.
  injection E as E. symmetry in E. exact (to_uint_nonnil n E).
Qed.

Lemma name_at_inj cls i j : name_at cls i = name_at cls j -> i = j.
Proof.
  unfold name_at.
  destruct (Nat.eqb_spec i 0) as [->|Hi], (Nat.eqb_spec j 0) as [->|Hj];
    intros H; [reflexivity | injection H as H ..].
  - exfalso. apply (str_of_nat_nonempty j). apply (append_cancel_l (lower cls)).
    rewrite <- H. symmetry. apply append_empty_r.
  - exfalso. apply (str_of_nat_nonempty i). apply (append_cancel_l (lower cls)).
    rewrite H. symmetry. apply append_empty_r.
  - apply str_of_nat_inj. apply (append_cancel_l (lower cls)). exact H.
Qed.

(** A construction with no explicit name on a tracker of [s]. *)
Lemma construct_step st s self :
  instances st = Bound s ->
  live_step (Construct self) st
  = Return (Some (name_at (class_name (node st)) (size s)))
      (mkState (node st) (Bound (s ∪ {[self]})) (roots st) (native st)).
Proof.
  intros Hs. unfold live_step, BareWidget_name. cbn [dict_get falsy].
  unfold bind, get_node, getinstances, addinstance, getinstances, bind. rewrite Hs.
  cbn iota beta. unfold name_at.
  destruct (Nat.eqb (size s) 0); unfold ret, put_instances, modify; cbn iota beta;
    cbn [instances]; rewrite Hs; reflexivity.
Qed.

Lemma live_run_constructions ids : forall st s,
  instances st = Bound s ->
  NoDup ids ->
  (forall i, In i ids -> i ∉ s) ->
  live_run (map Construct ids) st
  = zip ids (map (name_at (class_name (node st))) (seq (size s) (length ids))).
Proof.
  induction ids as [|i ids IH]; intros st s Hs Hnd Hfresh; [reflexivity|].
  cbn [map live_run length seq zip zip_with].
  rewrite (construct_step st s i Hs). cbn iota.
  apply NoDup_cons in Hnd as [Hi Hnd].
  rewrite (IH _ (s ∪ {[i]})); cbn [node instances]; try reflexivity; try exact Hnd.
  - rewrite size_union, size_singleton, Nat.add_1_r; [reflexivity|].
    apply disjoint_singleton_r, Hfresh. left. reflexivity.
  - intros j Hj. rewrite elem_of_union, elem_of_singleton. intros [Hjs|Heq].
    + exact (Hfresh j (or_intror Hj) Hjs).
    + subst j. apply Hi, list_elem_of_In. exact Hj.
Qed.

(** C3 (amended).  The index behind a derived name is the number of
    instances tracked when the widget is constructed: constructions that no
    destruction interrupts receive the class name followed by consecutive
    indices (none for index 0), hence pairwise distinct names. *)
Theorem uninterrupted_constructions_get_distinct_names st s ids :
  instances st = Bound s ->
  NoDup ids ->
  (forall i, In i ids -> i ∉ s) ->
  live_run (map Construct ids) st
    = zip ids (map (name_at (class_name (node st))) (seq (size s) (length ids)))
  /\ names_distinct (map Construct ids) st.
Proof.
  intros Hs Hnd Hfresh.
  pose proof (live_run_constructions ids st s Hs Hnd Hfresh) as Hrun.
  split; [exact Hrun|]. unfold names_distinct. rewrite Hrun.
  change (map snd ?l) with (l.*2). rewrite snd_zip.
  - apply (@NoDup_fmap_2 _ _ _ (name_at_inj (class_name (node st)))). apply NoDup_seq.
  - rewrite length_map, length_seq. lia.
Qed.

Lemma uninterrupted_constructions_get_distinct_names_witness :
  live_run (map Construct [1; 2; 3]%nat) no_button
  = [(1, VStr "button"); (2, VStr "button1"); (3, VStr "button2")]%nat.
Proof.
  refine (proj1 (uninterrupted_constructions_get_distinct_names no_button ∅
                   [1; 2; 3]%nat eq_refl _ _)).
  - apply (bool_decide_unpack (NoDup [1; 2; 3]%nat)). reflexivity.
  - intros i _. apply not_elem_of_empty.
Defined.

(** C3 as stated fails: after the first of two buttons is destroyed, a
    third button receives the name the second one still carries. *)
Lemma names_distinct_fails :
  ~ names_distinct [Construct 1; Construct 2; Destroy 1; Construct 3]%nat no_button.
Proof.
  unfold names_distinct.
  assert (live_run [Construct 1; Construct 2; Destroy 1; Construct 3]%nat no_button
          = [(1, VStr "button"); (2, VStr "button1"); (3, VStr "button1")]%nat) as ->
    by (vm_compute; reflexivity).
  cbn [map snd]. intros Hnd.
  apply NoDup_cons in Hnd as [_ Hnd]. apply NoDup_cons in Hnd as [Hin _].
  apply Hin. left.
Qed.

(** Both holders of the repeated name are tracked at that point. *)
Example repeated_name_holders_live :
  instances (live_final [Construct 1; Construct 2; Destroy 1; Construct 3]%nat no_button)
  = Bound ({[2; 3]}%nat : gset nat).
Proof. vm_compute. reflexivity. Qed.

Lemma append_dot_inj (a b : string) : a ++ "." = b ++ "." -> a = b.
Proof.
  revert b. induction a as [|c a IH]; intros [|c' b] H.
  - reflexivity.
  - injection H as _ H. destruct b; discriminate H.
  - injection H as _ H. destruct a; discriminate H.
  - injection H as -> H. f_equal. apply IH. exact H.
Qed.

(** Distinct names give distinct tree paths under one parent. *)
Lemma tree_path_inj parent a b : tree_path parent a = tree_path parent b -> a = b.
Proof.
  unfold tree_path. intros H. apply append_cancel_l in H. apply append_cancel_l in H.
  apply append_dot_inj. exact H.
Qed.

(** * Further properties *)

(** ** Ratio *)

Section RatioMore.
Import Ratio.

(** X1.  [reduce()] on an integer pair whose greatest common divisor is
    not 0 keeps the fraction: the new components are coprime, they
    cross-multiply with the old ones, the denominator keeps its sign, and
    the flag is set. *)
Theorem reduce_keeps_the_fraction r n d :
  numerator r = Some n ->
  denominator r = Some d ->
  Z.gcd n d <> 0 ->
  exists n' d',
    reduce r = Return tt (mk (Some n') (Some d') (Some true))
    /\ n * d' = n' * d
    /\ Z.gcd n' d' = 1
    /\ (0 < d <-> 0 < d')
    /\ (d < 0 <-> d' < 0).
Proof.
  intros Hn Hd Hg. exists (n / Z.gcd n d), (d / Z.gcd n d).
  pose proof (Z.gcd_nonneg n d) as Hpos.
  pose proof (exact_quotient n (Z.gcd n d) (Z.gcd_divide_l n d) Hg) as En.
  pose proof (exact_quotient d (Z.gcd n d) (Z.gcd_divide_r n d) Hg) as Ed.
  split; [apply reduce_ok; assumption|].
  split; [|split; [apply gcd_quotients; exact Hg|]].
  - set (g := Z.gcd n d) in *. set (a := n / g) in *. set (b := d / g) in *.
    clearbody g a b. subst n d. ring.
  - set (g := Z.gcd n d) in *. set (b := d / g) in *. clearbody g b.
    split; split; nia.
Qed.

Lemma reduce_keeps_the_fraction_witness :
  exists n' d',
    reduce (new (Some 6) (Some (-4))) = Return tt (mk (Some n') (Some d') (Some true))
    /\ 6 * d' = n' * (-4).
Proof.
  destruct (reduce_keeps_the_fraction (new (Some 6) (Some (-4))) 6 (-4)
              eq_refl eq_refl ltac:(discriminate)) as (n' & d' & H1 & H2 & _).
  exists n', d'. split; assumption.
Defined.

(** X2.  A read of [ratio] that returned is repeatable: reading again
    returns the same pair and leaves the object as the first read left
    it. *)
Theorem ratio_read_is_stable r p r1 :
  ratio r = Return p r1 -> ratio r1 = Return p r1.
Proof.
  unfold ratio, bind, get. simpl.
  destruct (py_not (reduced r)) eqn:Hf.
  - destruct (reduce r) as [[] s|e s] eqn:Hr; [|discriminate].
    intros H. cbv [ret] in H. injection H as <- <-.
    assert (reduced s = Some true) as ->.
    { destruct (numerator r) as [n|] eqn:Hn, (denominator r) as [d|] eqn:Hd;
        try (unfold reduce, bind, get, gcd, raise in Hr; simpl in Hr;
             rewrite ?Hn, ?Hd in Hr; discriminate Hr).
      destruct (Z.eq_dec (Z.gcd n d) 0) as [Hz|Hnz].
      - unfold reduce, bind, get, gcd, floordiv, ret, raise in Hr. simpl in Hr.
        rewrite Hn, Hd in Hr. simpl in Hr. rewrite Hn in Hr. rewrite Hz in Hr.
        discriminate Hr.
      - rewrite (reduce_ok r n d Hn Hd Hnz) in Hr. injection Hr as <-. reflexivity. }
    reflexivity.
  - intros H. cbv [ret] in H. injection H as <- <-. rewrite Hf. reflexivity.
Qed.

Lemma ratio_read_is_stable_witness :
  ratio (mk (Some 3) (Some (-2)) (Some true))
  = Return (Some 3, Some (-2)) (mk (Some 3) (Some (-2)) (Some true)).
Proof.
  exact (ratio_read_is_stable (new (Some 6) (Some (-4))) _ _ eq_refl).
Defined.

End RatioMore.

(** ** Callback groups *)

Section CallableMore.
Variable fn_body : nat -> list pyval -> pyval + exn.


(** X4.  The constructor of a group drops what is not callable, and a group
    left with no function returns the tuple of its arguments without
    calling anything. *)
Theorem group_without_callables_returns_its_arguments members args w :
  forallb (fun v => negb (callable v)) members = true ->
  call fn_body (Callable___init__ members) args w = Return (VTuple args) w.
Proof.
  intros H. unfold Callable___init__.
  assert (List.filter callable members = []) as ->.
  { induction members as [|v l IH]; [reflexivity|]. simpl in H.
    apply andb_prop in H as [Hv Hl]. simpl.
    destruct (callable v); [discriminate Hv | apply IH; exact Hl]. }
  reflexivity.
Qed.

(** X5.  The last function of a group runs first, on the arguments of the
    call: when it raises, the exception leaves the group and no other
    function of the group is invoked. *)
Theorem group_stops_when_the_last_function_raises fs g e args w :
  fn_body g args = inr e ->
  call fn_body (VGroup (fs ++ [VFun g])) args w
  = Raise e (logged w [(VFun g, args)]).
Proof.
  intros Hg. rewrite call_group. unfold Callable___call__.
  rewrite rev_app_distr. cbn [rev app Callable_loop is_None py_iter].
  unfold bind at 1. unfold bind at 1. unfold ret at 1.
  rewrite call_VFun, Hg. reflexivity.
Qed.

End CallableMore.


Lemma group_without_callables_returns_its_arguments_witness :
  call sample_body (Callable___init__ [VInt 3; VStr "x"; VNone]) [VInt 1; VInt 2] empty_world
  = Return (VTuple [VInt 1; VInt 2]) empty_world.
Proof.
  exact (group_without_callables_returns_its_arguments sample_body
           [VInt 3; VStr "x"; VNone] [VInt 1; VInt 2] empty_world eq_refl).
Defined.

Lemma group_stops_when_the_last_function_raises_witness :
  call sample_body (VGroup ([VFun 1; VFun 2] ++ [VFun 0])) [VInt 1] empty_world
  = Raise RuntimeError (logged empty_world [(VFun 0, [VInt 1])]).
Proof.
  exact (group_stops_when_the_last_function_raises sample_body [VFun 1; VFun 2] 0
           RuntimeError [VInt 1] empty_world eq_refl).
Defined.


(** ** Observers *)

Lemma dict_get_set_eq {V} (d : dict V) k v : dict_get (dict_set d k v) k = Some v.
Proof.
  induction d as [|[k' v'] d IH]; simpl.
  - rewrite String.eqb_refl. reflexivity.
  - destruct (String.eqb k' k) eqn:E; simpl; rewrite E; [reflexivity | exact IH].
Qed.

Lemma dict_get_set_ne {V} (d : dict V) k v k' :
  k' <> k -> dict_get (dict_set d k v) k' = dict_get d k'.
Proof.
  intros Hne. induction d as [|[k0 v0] d IH]; simpl.
  - destruct (String.eqb k k') eqn:E; [|reflexivity].
    apply String.eqb_eq in E. congruence.
  - destruct (String.eqb k0 k) eqn:E; simpl.
    + apply String.eqb_eq in E. subst k0.
      destruct (String.eqb k k') eqn:E'; [|reflexivity].
      apply String.eqb_eq in E'. congruence.
    + destruct (String.eqb k0 k'); [reflexivity | exact IH].
Qed.

Lemma keys_dict_set_known {V} (d : dict V) k v :
  dict_mem d k = true -> keys (dict_set d k v) = keys d.
Proof.
  unfold dict_mem. induction d as [|[k' v'] d IH]; intros H; [discriminate H|].
  cbn [dict_get] in H. cbn [dict_set].
  destruct (String.eqb k' k); [reflexivity|].
  cbn [keys map fst]. f_equal. apply IH. exact H.
Qed.

Lemma dict_set_fresh {V} (d : dict V) k v :
  ~ In k (keys d) -> dict_set d k v = (d ++ [(k, v)])%list.
Proof.
  induction d as [|[k' v'] d IH]; simpl; intros Hn; [reflexivity|].
  destruct (String.eqb k' k) eqn:E.
  - apply String.eqb_eq in E. exfalso. apply Hn. left. exact E.
  - rewrite IH; [reflexivity|]. intros Hin. apply Hn. right. exact Hin.
Qed.

(** X6.  Storing an observer and looking it up: a value that is not
    callable is refused with [ValueError]; a callable is stored under the
    key coerced to a string (an integer by its decimal digits) and found
    there again, the other entries keep their values, and a key already
    present keeps its place in the order. *)
Theorem observers_setitem_then_getitem (d : dict pyval) key value (w : World) :
  (callable value = false -> Observers___setitem__ d key value w = Raise ValueError w)
  /\ (callable value = true ->
      exists d',
        Observers___setitem__ d key value w = Return d' w
        /\ Observers___getitem__ d' (str_of_key key) w = Return value w
        /\ (forall k, k <> str_of_key key -> dict_get d' k = dict_get d k)
        /\ (dict_mem d (str_of_key key) = true -> keys d' = keys d)).
Proof.
  unfold Observers___setitem__, Observers___getitem__. split; intros Hc; rewrite Hc; simpl.
  - reflexivity.
  - exists (dict_set d (str_of_key key) value). repeat split.
    + rewrite dict_get_set_eq. reflexivity.
    + intros k Hk. apply dict_get_set_ne. exact Hk.
    + apply keys_dict_set_known.
Qed.

Section ObserversMore.
Variable fn_body : nat -> list pyval -> pyval + exn.

Lemma call_leaf_result o w :
  leaf o = true ->
  observer_raises fn_body (variables w) (bounds w) o = None ->
  call fn_body o [] w = Return (observer_result fn_body o) (logged w [(o, [])]).
Proof.
  destruct o; try discriminate; intros _ Hq; simpl in Hq.
  - rewrite call_VFun. simpl. destruct (fn_body f []); [reflexivity | discriminate].
  - simpl. unfold bind, log_call, modify. simpl.
    rewrite Bounds_enforce_frame. simpl. rewrite Hq. reflexivity.
Qed.

Lemma call_all_results d : forall acc w,
  NoDup (keys acc ++ keys d)%list ->
  forallb leaf (map snd d) = true ->
  first_raise fn_body (variables w) (bounds w) d = None ->
  call_all fn_body d acc w
  = Return (acc ++ map (fun kv => (fst kv, observer_result fn_body (snd kv))) d)%list
      (logged w (no_args (map snd d))).
Proof.
  induction d as [|[name o] d IH]; intros acc w Hnd Hl Hq.
  - simpl. rewrite app_nil_r, logged_nil. reflexivity.
  - simpl in Hl, Hq. apply andb_prop in Hl as [Ho Hl].
    destruct (observer_raises fn_body (variables w) (bounds w) o) eqn:Hr; [discriminate|].
    cbn [call_all]. rewrite (bind_eq _ _ _ _ _ (call_leaf_result o w Ho Hr)).
    assert (~ In name (keys acc)) as Hfresh.
    { cbn [keys map fst] in Hnd. apply NoDup_app in Hnd as (_ & Hdis & _).
      intros Hin. apply (Hdis name); [apply list_elem_of_In; exact Hin | left]. }
    rewrite (dict_set_fresh acc name _ Hfresh).
    rewrite IH; cbn [variables bounds logged]; try assumption.
    + rewrite logged_logged, <- app_assoc. reflexivity.
    + unfold keys. rewrite map_app. cbn [map fst]. rewrite <- app_assoc. exact Hnd.
Qed.

(** X7.  A broadcast in which no observer raises returns a mapping with
    one entry per observer, in the order of the observers mapping, each
    name bound to what its observer returned. *)
Theorem broadcast_returns_every_result (d : dict pyval) w :
  NoDup (keys d) ->
  forallb leaf (map snd d) = true ->
  first_raise fn_body (variables w) (bounds w) d = None ->
  Observers___call__ fn_body d [] [] w
  = Return (map (fun kv => (fst kv, observer_result fn_body (snd kv))) d)
      (logged w (no_args (map snd d))).
Proof.
  intros Hnd Hl Hq. unfold Observers___call__.
  apply (call_all_results d [] w); assumption.
Qed.

Lemma call_named_app d l1 : forall l2 acc w,
  call_named fn_body d (l1 ++ l2) acc w =
    match call_named fn_body d l1 acc w with
    | Return r w' => call_named fn_body d l2 r w'
    | Raise e w' => Raise e w'
    end.
Proof.
  induction l1 as [|k l1 IH]; intros l2 acc w; [reflexivity|].
  cbn [app call_named]. unfold bind.
  destruct (Observers___getitem__ d k w) as [o w1|e w1]; [|reflexivity].
  destruct (call fn_body o [] w1) as [r w2|e w2]; [|reflexivity].
  apply IH.
Qed.

Lemma call_named_answers d names : forall acc w,
  Forall (answers fn_body (variables w) (bounds w) d) names ->
  exists res,
    call_named fn_body d names acc w
    = Return res (logged w (no_args (omap (dict_get d) names))).
Proof.
  induction names as [|k names IH]; intros acc w Hall.
  - exists acc. simpl. rewrite logged_nil. reflexivity.
  - apply Forall_cons in Hall as [(o & Hget & Hleaf & Hq) Hall].
    change (omap (dict_get d) (k :: names))
      with (match dict_get d k with
            | Some y => y :: omap (dict_get d) names
            | None => omap (dict_get d) names
            end).
    cbn [call_named]. rewrite Hget.
    unfold Observers___getitem__. rewrite Hget. unfold bind at 1. unfold ret at 1.
    rewrite (bind_eq _ _ _ _ _ (call_leaf_result o w Hleaf Hq)).
    destruct (IH (dict_set acc k (observer_result fn_body o)) (logged w [(o, [])]) Hall)
      as [res Hres].
    exists res. rewrite Hres, logged_logged. reflexivity.
Qed.

(** X8.  Called with names, the mapping invokes the observers of these
    names and no other, once per name and in the order the names are given,
    when every name is known and its observer returns. *)
Theorem targeted_call_invokes_the_named_in_order (d : dict pyval) name names w :
  Forall (answers fn_body (variables w) (bounds w) d) (name :: names) ->
  exists res,
    Observers___call__ fn_body d (name :: names) [] w
    = Return res (logged w (no_args (omap (dict_get d) (name :: names)))).
Proof.
  intros Hall. unfold Observers___call__.
  destruct (call_named_answers d (name :: names) [] w Hall) as [res Hres].
  exists res. rewrite (bind_eq _ _ _ _ _ Hres). reflexivity.
Qed.

(** X9.  A name the mapping does not know ends a targeted call with
    [KeyError]: the observers named before it have been invoked, those
    named after it and the keyword ones are not. *)
Theorem targeted_call_stops_at_unknown_name (d : dict pyval) before name after kw w :
  Forall (answers fn_body (variables w) (bounds w) d) before ->
  dict_get d name = None ->
  Observers___call__ fn_body d (before ++ name :: after) kw w
  = Raise KeyError (logged w (no_args (omap (dict_get d) before))).
Proof.
  intros Hall Hmiss. unfold Observers___call__.
  assert (forall (X : Type) (a b : X),
            match (before ++ name :: after)%list, kw with
            | [], [] => a
            | _, _ => b
            end = b) as Hmatch.
  { intros X a b. destruct before; reflexivity. }
  rewrite Hmatch.
  destruct (call_named_answers d before [] w Hall) as [res Hres].
  apply bind_raise_eq. rewrite call_named_app, Hres.
  cbn [call_named]. apply bind_raise_eq.
  unfold Observers___getitem__. rewrite Hmiss. reflexivity.
Qed.

(** ** Variable *)

(** X10.  The constructor of a variable: a value that is not [None] is
    stored and [default] is never called; with no value and a default that
    is not callable it raises [ValueError], the observers mapping already
    installed; with no value and a function as default it calls the
    function once, with no argument, and stores what it returns. *)
Theorem variable_constructor_cases default value w :
  (is_None value = false ->
     new_Variable fn_body default value w
     = Return (length (variables w))
         (mkWorld (variables w ++ [mkVariable (Some []) value]) (bounds w) (calls w)))
  /\ (is_None value = true -> callable default = false ->
      new_Variable fn_body default value w
      = Raise ValueError (mkWorld (variables w ++ [mkVariable (Some []) VNone])
                            (bounds w) (calls w)))
  /\ (forall f r, is_None value = true -> default = VFun f -> fn_body f [] = inl r ->
      new_Variable fn_body default value w
      = Return (length (variables w))
          (mkWorld (variables w ++ [mkVariable (Some []) r])
             (bounds w) (calls w ++ [(VFun f, [])]))).
Proof.
  set (self := length (variables w)).
  assert (forall cs, Variable___init__ fn_body self default value
             (mkWorld (variables w ++ [Variable_defaults]) (bounds w) cs)
           = bind (if is_None value
                   then (if negb (callable default) then raise ValueError
                         else call fn_body default [])
                   else ret value)
               (fun value => Variable_set_value fn_body self value)
               (mkWorld (variables w ++ [mkVariable (Some []) VNone]) (bounds w) cs)) as Hinit.
  { intros cs. unfold Variable___init__, HasObserver___init__, HasObserver_set_observers.
    unfold bind at 1. unfold bind at 1. unfold load_Variable at 1. cbn [variables].
    subst self. rewrite lookup_app_r by lia. rewrite Nat.sub_diag. cbn.
    unfold store_Variable, modify. cbn.
    rewrite insert_app_r_alt by lia. rewrite Nat.sub_diag. reflexivity. }
  assert (forall v cs, Variable_set_value fn_body self v
             (mkWorld (variables w ++ [mkVariable (Some []) VNone]) (bounds w) cs)
           = Return tt (mkWorld (variables w ++ [mkVariable (Some []) v]) (bounds w) cs))
    as Hset.
  { intros v cs.
    rewrite (Variable_set_value_eq fn_body _ self (mkVariable (Some []) VNone) [] v).
    - cbn. rewrite insert_app_r_alt by (subst self; lia).
      subst self. rewrite Nat.sub_diag, app_nil_r. reflexivity.
    - cbn. subst self. rewrite lookup_app_r by lia. rewrite Nat.sub_diag. reflexivity.
    - reflexivity.
    - reflexivity. }
  assert (new_Variable fn_body default value w
          = match Variable___init__ fn_body self default value
                    (mkWorld (variables w ++ [Variable_defaults]) (bounds w) (calls w)) with
            | Return _ s' => Return self s'
            | Raise e s' => Raise e s'
            end) as -> by reflexivity.
  rewrite Hinit. repeat split.
  - intros Hv. rewrite Hv. unfold bind, ret. rewrite Hset. reflexivity.
  - intros Hv Hd. rewrite Hv, Hd. reflexivity.
  - intros f r Hv -> Hf. rewrite Hv. cbn [callable negb].
    unfold bind. rewrite call_VFun, Hf. cbn. rewrite Hset. reflexivity.
Qed.

(** X11.  A variable is initialised once: running the constructor body
    again on an initialised variable raises the re-instantiation error
    before anything else, so the observers, the value and the call log are
    as they were. *)
Theorem variable_reinitialisation_is_refused a v d default value w :
  variables w !! a = Some v ->
  Variable__observers v = Some d ->
  exists msg, Variable___init__ fn_body a default value w = Raise (InstantiatedError msg) w.
Proof.
  intros Hv Hd. eexists. unfold Variable___init__, HasObserver___init__.
  apply bind_raise_eq. unfold HasObserver_set_observers, bind, load_Variable.
  rewrite Hv, Hd. reflexivity.
Qed.

End ObserversMore.

Lemma broadcast_returns_every_result_witness :
  Observers___call__ sample_body [("c", VFun 1); ("d", VFun 3)] [] [] empty_world
  = Return [("c", VInt 2); ("d", VNone)]
      (logged empty_world [(VFun 1, []); (VFun 3, [])]).
Proof.
  refine (broadcast_returns_every_result sample_body [("c", VFun 1); ("d", VFun 3)]
            empty_world _ eq_refl eq_refl).
  apply (bool_decide_unpack (NoDup ["c"; "d"])). reflexivity.
Defined.

Lemma sample_answers name :
  name = "a" \/ name = "b" \/ False ->
  answers sample_body [] [] [("a", VFun 1); ("b", VFun 3)] name.
Proof.
  intros [->|[->|[]]]; eexists; (split; [reflexivity | split; reflexivity]).
Defined.

Lemma targeted_call_invokes_the_named_in_order_witness :
  exists res,
    Observers___call__ sample_body [("a", VFun 1); ("b", VFun 3)] ["b"; "a"] [] empty_world
    = Return res (logged empty_world [(VFun 3, []); (VFun 1, [])]).
Proof.
  refine (targeted_call_invokes_the_named_in_order sample_body
            [("a", VFun 1); ("b", VFun 3)] "b" ["a"] empty_world _).
  repeat (apply Forall_cons; split; [apply sample_answers; auto|]). apply Forall_nil_2.
Defined.

Lemma targeted_call_stops_at_unknown_name_witness :
  Observers___call__ sample_body [("a", VFun 1); ("b", VFun 3)] (["b"] ++ "zz" :: ["a"])
    [] empty_world
  = Raise KeyError (logged empty_world [(VFun 3, [])]).
Proof.
  refine (targeted_call_stops_at_unknown_name sample_body
            [("a", VFun 1); ("b", VFun 3)] ["b"] "zz" ["a"] [] empty_world _ eq_refl).
  repeat (apply Forall_cons; split; [apply sample_answers; auto|]). apply Forall_nil_2.
Defined.

Lemma variable_reinitialisation_is_refused_witness :
  exists msg,
    Variable___init__ sample_body 0 VNone (VInt 9) sample_observed
    = Raise (InstantiatedError msg) sample_observed.
Proof.
  exact (variable_reinitialisation_is_refused sample_body 0 _ _ VNone (VInt 9)
           sample_observed eq_refl eq_refl).
Defined.

(** ** Bounds *)

Lemma load_Bounds_eq w self b :
  bounds w !! self = Some b -> load_Bounds self w = Return b w.
Proof. intros H. unfold load_Bounds. rewrite H. reflexivity. Qed.

Lemma load_Variable_eq w a v :
  variables w !! a = Some v -> load_Variable a w = Return v w.
Proof. intros H. unfold load_Variable. rewrite H. reflexivity. Qed.

Lemma getattr_value_eq w a v :
  variables w !! a = Some v -> getattr_value (VVar a) w = Return (Variable__value v) w.
Proof. intros H. unfold getattr_value. rewrite (bind_eq _ _ _ _ _ (load_Variable_eq w a v H)). reflexivity. Qed.

Lemma getattr_observers_eq w a v :
  variables w !! a = Some v ->
  getattr_observers (VVar a) w = Return (Variable__observers v) w.
Proof. intros H. unfold getattr_observers. rewrite (bind_eq _ _ _ _ _ (load_Variable_eq w a v H)). reflexivity. Qed.

(** The two steps every construction on an integer variable goes through:
    the back-reference is stored and [enforce] is registered under the
    string of the object's identity, then [minimum] is stored. *)
Lemma Bounds_init_prefix w a d x lo :
  variables w !! a = Some (mkVariable (Some d) (VInt x)) ->
  let self := length (bounds w) in
  let d' := dict_set d (str_of_Z (Z.of_nat self)) (VEnforce self) in
  let vars' := <[a:=mkVariable (Some d') (VInt x)]> (variables w) in
  bounds (mkWorld vars' (bounds w ++ [mkBounds (VInt lo) VNone (VVar a)]) (calls w)) !! self
    = Some (mkBounds (VInt lo) VNone (VVar a))
  /\ vars' !! a = Some (mkVariable (Some d') (VInt x))
  /\ forall hi,
       new_Bounds (VVar a) (VInt lo) hi w
       = match (if negb (is_None hi) then Bounds_set_maximum self hi else ret tt)
                 (mkWorld vars' (bounds w ++ [mkBounds (VInt lo) VNone (VVar a)]) (calls w))
         with
         | Return _ s' => Return self s'
         | Raise e s' => Raise e s'
         end.
Proof.
  intros Hv self d' vars'.
  assert (a < length (variables w))%nat as Hlt by (eapply lookup_lt_Some; exact Hv).
  assert (vars' !! a = Some (mkVariable (Some d') (VInt x))) as Hv'
    by (apply list_lookup_insert_eq; exact Hlt).
  split; [|split; [exact Hv'|]].
  - cbn [bounds]. subst self. rewrite lookup_app_r by lia. rewrite Nat.sub_diag. reflexivity.
  - intros hi.
    set (w0 := mkWorld (variables w) (bounds w ++ [Bounds_defaults]) (calls w)).
    set (w1 := mkWorld (variables w) (bounds w ++ [mkBounds VNone VNone (VVar a)]) (calls w)).
    set (w2 := mkWorld vars' (bounds w ++ [mkBounds VNone VNone (VVar a)]) (calls w)).
    assert (bounds w0 !! self = Some Bounds_defaults) as H0.
    { cbn. subst self. rewrite lookup_app_r by lia. rewrite Nat.sub_diag. reflexivity. }
    assert (store_Bounds self (mkBounds VNone VNone (VVar a)) w0 = Return tt w1) as H1.
    { unfold store_Bounds, modify, w0, w1. cbn. subst self.
      rewrite insert_app_r_alt by lia. rewrite Nat.sub_diag. reflexivity. }
    assert (bounds w1 !! self = Some (mkBounds VNone VNone (VVar a))) as H2.
    { cbn. subst self. rewrite lookup_app_r by lia. rewrite Nat.sub_diag. reflexivity. }
    assert (variables w1 !! a = Some (mkVariable (Some d) (VInt x))) as H3 by exact Hv.
    assert (store_Variable a (mkVariable (Some d') (VInt x)) w1 = Return tt w2) as H4
      by reflexivity.
    assert (bounds w2 !! self = Some (mkBounds VNone VNone (VVar a))) as H5 by exact H2.
    assert (Bounds_set_minimum self (VInt lo) w2
            = Return tt (mkWorld vars' (bounds w ++ [mkBounds (VInt lo) VNone (VVar a)])
                           (calls w))) as H6.
    { unfold Bounds_set_minimum.
      rewrite (bind_eq _ _ _ _ _ (load_Bounds_eq w2 self _ H5)).
      cbn [Bounds__enforces Bounds__maximum Bounds__minimum].
      rewrite (bind_eq _ _ _ _ _ (getattr_value_eq w2 a _ Hv')).
      cbn. unfold store_Bounds, modify. cbn. subst self.
      rewrite insert_app_r_alt by lia. rewrite Nat.sub_diag. reflexivity. }
    assert (new_Bounds (VVar a) (VInt lo) hi w
            = match Bounds___init__ self (VVar a) (VInt lo) hi w0 with
              | Return _ s' => Return self s'
              | Raise e s' => Raise e s'
              end) as -> by reflexivity.
    unfold Bounds___init__. cbn [isinstance type_of pytype_eqb negb is_None].
    rewrite (bind_eq _ _ _ _ _ (load_Bounds_eq w0 self _ H0)).
    cbn [Bounds_defaults Bounds__minimum Bounds__maximum].
    rewrite (bind_eq _ _ _ _ _ H1).
    rewrite (bind_eq _ _ _ _ _ (load_Bounds_eq w1 self _ H2)).
    cbn [Bounds__enforces].
    rewrite (bind_eq _ _ _ _ _ (getattr_observers_eq w1 a _ H3)).
    cbn [Variable__observers Observers___setitem__ callable negb].
    unfold bind at 1. unfold bind at 1. unfold ret at 1.
    rewrite (bind_eq _ _ _ _ _ (load_Variable_eq w1 a _ H3)).
    cbn [Variable__value str_of_key]. fold d'. rewrite H4.
    rewrite (bind_eq _ _ _ _ _ H6). reflexivity.
Qed.

Lemma new_Bounds_in_order w a d x lo hi :
  variables w !! a = Some (mkVariable (Some d) (VInt x)) ->
  lo <= hi ->
  new_Bounds (VVar a) (VInt lo) (VInt hi) w
  = Return (length (bounds w))
      (mkWorld
         (<[a:=mkVariable (Some (dict_set d (str_of_Z (Z.of_nat (length (bounds w))))
                                   (VEnforce (length (bounds w)))))
                 (VInt x)]> (variables w))
         (bounds w ++ [mkBounds (VInt lo) (VInt hi) (VVar a)])
         (calls w)).
Proof.
  intros Hv Hle. set (self := length (bounds w)).
  destruct (Bounds_init_prefix w a d x lo Hv) as (Hb & Hv' & Hnew).
  rewrite Hnew. cbn [is_None negb]. fold self in Hb, Hv' |- *.
  match type of Hb with bounds ?t !! _ = _ => set (w3 := t) in * end.
  unfold Bounds_set_maximum.
  rewrite (bind_eq _ _ _ _ _ (load_Bounds_eq w3 self _ Hb)).
  cbn [Bounds__enforces Bounds__maximum Bounds__minimum].
  rewrite (bind_eq _ _ _ _ _ (getattr_value_eq w3 a _ Hv')).
  cbn. assert ((hi <? lo) = false) as -> by (apply Z.ltb_ge; lia).
  unfold store_Bounds, modify. cbn. subst self.
  rewrite insert_app_r_alt by lia. rewrite Nat.sub_diag. reflexivity.
Qed.


(** X12.  On a variable holding an integer, [Bounds(V, lo, hi)] with
    integers [lo <= hi] returns: the new object holds both bounds and the
    reference to V, V gains the object's [enforce] as observer under the
    string of the object's identity, and nothing is invoked: the current
    value of V is not checked against the interval. *)
Theorem bounds_construction_registers_without_checking w a d x lo hi :
  variables w !! a = Some (mkVariable (Some d) (VInt x)) ->
  lo <= hi ->
  let self := length (bounds w) in
  new_Bounds (VVar a) (VInt lo) (VInt hi) w
  = Return self
      (mkWorld
         (<[a:=mkVariable (Some (dict_set d (str_of_Z (Z.of_nat self)) (VEnforce self)))
                 (VInt x)]> (variables w))
         (bounds w ++ [mkBounds (VInt lo) (VInt hi) (VVar a)])
         (calls w)).
Proof.
  intros Hv Hle self. apply new_Bounds_in_order; assumption.
Qed.

(** X13.  A construction that fails on the interval has already registered
    itself: [Bounds(V, lo, hi)] with integers [lo > hi] on a variable
    holding an integer raises [ValueError] and leaves, among the observers
    of V, the [enforce] of an object whose minimum is [lo] and whose
    maximum is still [None]. *)
Theorem failed_bounds_construction_stays_registered w a d x lo hi :
  variables w !! a = Some (mkVariable (Some d) (VInt x)) ->
  hi < lo ->
  let self := length (bounds w) in
  new_Bounds (VVar a) (VInt lo) (VInt hi) w
  = Raise ValueError
      (mkWorld
         (<[a:=mkVariable (Some (dict_set d (str_of_Z (Z.of_nat self)) (VEnforce self)))
                 (VInt x)]> (variables w))
         (bounds w ++ [mkBounds (VInt lo) VNone (VVar a)])
         (calls w)).
Proof.
  intros Hv Hlt self.
  destruct (Bounds_init_prefix w a d x lo Hv) as (Hb & Hv' & Hnew).
  rewrite Hnew. cbn [is_None negb]. fold self in Hb, Hv' |- *.
  match type of Hb with bounds ?t !! _ = _ => set (w3 := t) in * end.
  unfold Bounds_set_maximum.
  rewrite (bind_eq _ _ _ _ _ (load_Bounds_eq w3 self _ Hb)).
  cbn [Bounds__enforces Bounds__maximum Bounds__minimum].
  rewrite (bind_eq _ _ _ _ _ (getattr_value_eq w3 a _ Hv')).
  cbn. assert ((hi <? lo) = true) as -> by (apply Z.ltb_lt; lia). reflexivity.
Qed.

Lemma getattr_value_frame x w :
  final_state (getattr_value x w) = w.
Proof.
  unfold getattr_value, bind, load_Variable, ret, raise.
  destruct x; try reflexivity. destruct (variables w !! addr); reflexivity.
Qed.

Lemma ordered_after_minimum w self b val :
  bounds w !! self = Some b -> ordered b ->
  exists b', bounds (final_state (Bounds_set_minimum self val w)) !! self = Some b'
             /\ ordered b'.
Proof.
  intros Hb (lo & hi & Hlo & Hhi & Hle). unfold Bounds_set_minimum.
  rewrite (bind_eq _ _ _ _ _ (load_Bounds_eq w self b Hb)).
  pose proof (getattr_value_frame (Bounds__enforces b) w) as Hfr. unfold bind at 1.
  destruct (getattr_value (Bounds__enforces b) w) as [cur w1|e w1]; simpl in Hfr; subst w1.
  2:{ exists b. split; [exact Hb | exists lo, hi; auto]. }
  destruct (negb (isinstance val (type_of cur))).
  { exists b. split; [exact Hb | exists lo, hi; auto]. }
  rewrite Hhi. cbn [is_None negb]. unfold bind.
  destruct val; cbn [py_lt raise ret]; try (exists b; split; [exact Hb | exists lo, hi; auto]).
  destruct (hi <? z) eqn:E.
  - exists b. split; [exact Hb | exists lo, hi; auto].
  - apply Z.ltb_ge in E. eexists. split.
    + unfold store_Bounds, modify. cbn. apply list_lookup_insert_eq.
      eapply lookup_lt_Some; exact Hb.
    + exists z, hi. split; [reflexivity | split; [reflexivity | exact E]].
Qed.

Lemma ordered_after_maximum w self b val :
  bounds w !! self = Some b -> ordered b ->
  exists b', bounds (final_state (Bounds_set_maximum self val w)) !! self = Some b'
             /\ ordered b'.
Proof.
  intros Hb (lo & hi & Hlo & Hhi & Hle). unfold Bounds_set_maximum.
  rewrite (bind_eq _ _ _ _ _ (load_Bounds_eq w self b Hb)).
  pose proof (getattr_value_frame (Bounds__enforces b) w) as Hfr. unfold bind at 1.
  destruct (getattr_value (Bounds__enforces b) w) as [cur w1|e w1]; simpl in Hfr; subst w1.
  2:{ exists b. split; [exact Hb | exists lo, hi; auto]. }
  destruct (negb (isinstance val (type_of cur))).
  { exists b. split; [exact Hb | exists lo, hi; auto]. }
  rewrite Hlo. cbn [is_None negb]. unfold bind.
  destruct val; cbn [py_lt raise ret]; try (exists b; split; [exact Hb | exists lo, hi; auto]).
  destruct (z <? lo) eqn:E.
  - exists b. split; [exact Hb | exists lo, hi; auto].
  - apply Z.ltb_ge in E. eexists. split.
    + unfold store_Bounds, modify. cbn. apply list_lookup_insert_eq.
      eapply lookup_lt_Some; exact Hb.
    + exists lo, z. split; [reflexivity | split; [reflexivity | exact E]].
Qed.

(** X14.  Once both bounds of an object are integers in order, no
    assignment to [minimum] or [maximum] can invert them: whatever value is
    assigned, and whether the assignment returns or raises, the object still
    holds two integers in order. *)
Theorem bounds_setters_keep_the_interval_ordered w self b val :
  bounds w !! self = Some b ->
  ordered b ->
  (exists b', bounds (final_state (Bounds_set_minimum self val w)) !! self = Some b'
              /\ ordered b')
  /\ (exists b', bounds (final_state (Bounds_set_maximum self val w)) !! self = Some b'
               /\ ordered b').
Proof.
  intros Hb Ho. split; [apply (ordered_after_minimum w self b) | apply (ordered_after_maximum w self b)];
    assumption.
Qed.

Section BoundsMore.
Variable fn_body : nat -> list pyval -> pyval + exn.

Lemma enforce_raises_one_sided vars bnds a b obs lo x :
  vars !! a = Some (mkVariable obs (VInt x)) ->
  bnds !! b = Some (mkBounds (VInt lo) VNone (VVar a)) ->
  enforce_raises vars bnds b = Some (if lo <=? x then TypeError else RuntimeError).
Proof.
  intros Hv Hb.
  cbv [enforce_raises Bounds_enforce bind load_Bounds getattr_value load_Variable
       ret raise variables bounds py_le].
  rewrite Hb. cbv [Bounds__enforces Bounds__minimum Bounds__maximum].
  rewrite Hv. cbv [Variable__value].
  destruct (lo <=? x); reflexivity.
Qed.

Lemma first_raise_some vars bnds (d : dict pyval) o e :
  In o (map snd d) ->
  observer_raises fn_body vars bnds o = Some e ->
  exists e', first_raise fn_body vars bnds d = Some e'.
Proof.
  induction d as [|[k o'] d IH]; simpl; intros Hin Hr; [contradiction|].
  destruct (observer_raises fn_body vars bnds o') as [e'|] eqn:Ho'; [eexists; reflexivity|].
  destruct Hin as [->|Hin]; [congruence|]. apply IH; assumption.
Qed.

(** X15.  An object with a minimum and no maximum accepts no value: while
    its [enforce] observes V, every assignment of an integer to [V.value]
    raises.  With the other observers returning normally the exception is
    [RuntimeError] below the minimum and [TypeError] from it upwards (the
    comparison with [None]). *)
Theorem one_sided_bounds_reject_every_write w a b v d lo x :
  variables w !! a = Some v ->
  Variable__observers v = Some d ->
  bounds w !! b = Some (mkBounds (VInt lo) VNone (VVar a)) ->
  forallb leaf (map snd d) = true ->
  In (VEnforce b) (map snd d) ->
  (exists e w', Variable_set_value fn_body a (VInt x) w = Raise e w')
  /\ ((forall o, In o (map snd d) -> o <> VEnforce b ->
         observer_raises fn_body (<[a:=mkVariable (Some d) (VInt x)]> (variables w))
           (bounds w) o = None) ->
      exists w', Variable_set_value fn_body a (VInt x) w
                 = Raise (if lo <=? x then TypeError else RuntimeError) w').
Proof.
  intros Hv Hd Hb Hl Hin.
  set (vars' := <[a:=mkVariable (Some d) (VInt x)]> (variables w)).
  assert (vars' !! a = Some (mkVariable (Some d) (VInt x))) as Hv'.
  { apply list_lookup_insert_eq. eapply lookup_lt_Some; exact Hv. }
  pose proof (enforce_raises_one_sided vars' (bounds w) a b (Some d) lo x Hv' Hb) as He.
  rewrite (Variable_set_value_eq fn_body w a v d (VInt x) Hv Hd Hl). fold vars'.
  split.
  - destruct (first_raise_some vars' (bounds w) d (VEnforce b) _ Hin He) as [e' ->].
    eexists _, _. reflexivity.
  - intros Hq. rewrite (first_raise_enforce fn_body vars' (bounds w) b d Hin Hq), He.
    eexists. reflexivity.
Qed.

End BoundsMore.

Lemma bounds_construction_registers_without_checking_witness :
  new_Bounds (VVar 0) (VInt 10) (VInt 20) sample_observed
  = Return 0%nat
      (mkWorld [mkVariable (Some [("a", VFun 0); ("b", VFun 3); ("0", VEnforce 0)]) (VInt 5)]
         [mkBounds (VInt 10) (VInt 20) (VVar 0)] []).
Proof.
  exact (bounds_construction_registers_without_checking sample_observed 0 _ 5 10 20
           eq_refl ltac:(discriminate)).
Defined.

Lemma failed_bounds_construction_stays_registered_witness :
  new_Bounds (VVar 0) (VInt 10) (VInt 0) sample_observed
  = Raise ValueError
      (mkWorld [mkVariable (Some [("a", VFun 0); ("b", VFun 3); ("0", VEnforce 0)]) (VInt 5)]
         [mkBounds (VInt 10) VNone (VVar 0)] []).
Proof.
  exact (failed_bounds_construction_stays_registered sample_observed 0 _ 5 10 0
           eq_refl eq_refl).
Defined.

Lemma bounds_setters_keep_the_interval_ordered_witness :
  exists b', bounds (final_state (Bounds_set_minimum 0 (VInt 11) sample_bounded)) !! 0%nat
             = Some b' /\ ordered b'.
Proof.
  refine (proj1 (bounds_setters_keep_the_interval_ordered sample_bounded 0 _ (VInt 11)
                   eq_refl _)).
  exists 0, 10. split; [reflexivity | split; [reflexivity | discriminate]].
Defined.

Lemma one_sided_bounds_reject_every_write_witness :
  exists e w', Variable_set_value sample_body 0 (VInt 12) sample_one_sided = Raise e w'.
Proof.
  refine (proj1 (one_sided_bounds_reject_every_write sample_body sample_one_sided 0 0 _ _
                   10 12 eq_refl eq_refl eq_refl eq_refl _)).
  left. reflexivity.
Defined.

(** ** The registry *)

Lemma keys_dict_set_fresh {V} (d : dict V) k v :
  ~ In k (keys d) -> keys (dict_set d k v) = (keys d ++ [k])%list.
Proof.
  intros H. rewrite (dict_set_fresh d k v H). unfold keys. rewrite map_app. reflexivity.
Qed.

Lemma HasTclCommands_commands_eq st d :
  HasTclCommands__tcl_commands (node st) = Bound d ->
  HasTclCommands_commands st = Return (Some d) st.
Proof.
  intros H. unfold HasTclCommands_commands, read, bind, get_node. rewrite H. reflexivity.
Qed.

(** X16.  An alias is one more key of the commands mapping: aliasing a
    name the mapping does not hold raises [RuntimeError] and changes
    nothing; aliasing a registered name under a new key returns, and the
    teardown then issues a delete-command for the alias as well, after those
    of the entries that were there, before the destroy instruction. *)
Theorem alias_costs_one_more_delete st h n d alias name :
  HasTcl__tk (node st) = Bound h ->
  HasTcl__tcl_varname (node st) = Bound n ->
  HasTclCommands__tcl_commands (node st) = Bound d ->
  (dict_mem d name = false -> addalias alias name st = Raise RuntimeError st)
  /\ (dict_mem d name = true -> ~ In alias (keys d) ->
      exists st1,
        addalias alias name st = Return tt st1
        /\ issued_by HasTclCommands___del__ st1
           = (map (Ndeletecommand h) (keys d)
                ++ [Ndeletecommand h alias;
                    Ncall (do_handle (node st) h) [VStr TCL_DESTROY; VStr n]])%list).
Proof.
  intros Htk Hn Hc. split.
  - intros Hm. unfold addalias.
    rewrite (bind_eq _ _ _ _ _ (HasTclCommands_commands_eq st d Hc)). rewrite Hm. reflexivity.
  - intros Hm Hfresh.
    set (st1 := mkState (with_commands (node st) (Bound (dict_set d alias (VStr name))))
                  (instances st) (roots st) (native st)).
    exists st1. split.
    + unfold addalias.
      rewrite (bind_eq _ _ _ _ _ (HasTclCommands_commands_eq st d Hc)). rewrite Hm. reflexivity.
    + assert (HasTcl__tk (node st1) = Bound h) as Htk1
        by (subst st1; cbn [node]; destruct (node st); exact Htk).
      assert (HasTcl__tcl_varname (node st1) = Bound n) as Hn1
        by (subst st1; cbn [node]; destruct (node st); exact Hn).
      assert (HasTclCommands__tcl_commands (node st1)
              = Bound (dict_set d alias (VStr name))) as Hc1
        by (subst st1; cbn [node]; destruct (node st); reflexivity).
      assert (do_handle (node st1) h = do_handle (node st) h) as Hdo
        by (subst st1; cbn [node]; destruct (node st); reflexivity).
      unfold issued_by. rewrite (HasTclCommands_del_eq st1 h n _ Htk1 Hn1 Hc1).
      cbn [final_state native]. rewrite drop_app_length.
      rewrite (keys_dict_set_fresh d alias _ Hfresh), map_app, Hdo, <- app_assoc.
      reflexivity.
Qed.

(** X17.  The constructor of the registry accepts no configuration: with
    at least one keyword argument it raises, whatever the state of the
    object and whatever the values, and it issues no native operation. *)
Theorem registry_constructor_rejects_every_configuration kw st :
  kw <> [] ->
  raises (HasTclCommands___init__ kw st)
  /\ native (final_state (HasTclCommands___init__ kw st)) = native st.
Proof.
  intros Hkw. unfold HasTclCommands___init__, HasTclCommands_set_commands,
    HasTclCommands_set_flags.
  destruct (HasTclCommands__tcl_commands (node st)) as [| |d] eqn:Hc.
  - rewrite (bind_raise_eq _ _ _ _ _ (write_once_missing _ _ _ st _ Hc)).
    split; [eexists _, _; reflexivity | reflexivity].
  - rewrite (bind_eq _ _ _ _ _ (write_once_unset _ _ _ st _ Hc)).
    match goal with |- context [bind _ _ ?s] => set (st1 := s) end.
    destruct (HasTclCommands__flags (node st1)) as [| |f] eqn:Hf.
    + rewrite (bind_raise_eq _ _ _ _ _ (write_once_missing _ _ _ st1 _ Hf)).
      split; [eexists _, _; reflexivity | reflexivity].
    + rewrite (bind_eq _ _ _ _ _ (write_once_unset _ _ _ st1 _ Hf)).
      rewrite init_loop_unbound by exact Hkw.
      split; [eexists _, _; reflexivity | reflexivity].
    + rewrite (bind_raise_eq _ _ _ _ _ (write_once_guarded _ _ _ st1 f _ Hf)).
      split; [eexists _, _; reflexivity | reflexivity].
  - rewrite (bind_raise_eq _ _ _ _ _ (write_once_guarded _ _ _ st d _ Hc)).
    split; [eexists _, _; reflexivity | reflexivity].
Qed.

(** X18.  A teardown that fails is not rolled back.  On a node without a
    variable name every command is deleted, the mapping is emptied, and
    [AttributeError] is raised with no destroy instruction issued.  On a
    node without a handle the first command is dropped from the mapping
    before its delete-command raises [AttributeError]: the mapping has lost
    an entry the interpreter still has. *)
Theorem failed_teardown_is_not_rolled_back st :
  (forall h d,
     HasTcl__tk (node st) = Bound h ->
     HasTcl__tcl_varname (node st) = Missing ->
     HasTclCommands__tcl_commands (node st) = Bound d ->
     HasTclCommands___del__ st
     = Raise AttributeError
         (mkState (with_commands (node st) (Bound [])) (instances st) (roots st)
            (native st ++ map (Ndeletecommand h) (keys d))))
  /\ (forall k v d,
        HasTcl__tk (node st) = Missing ->
        HasTclCommands__tcl_commands (node st) = Bound ((k, v) :: d) ->
        HasTclCommands___del__ st
        = Raise AttributeError
            (mkState (with_commands (node st) (Bound d)) (instances st) (roots st)
               (native st))).
Proof.
  split.
  - intros h d Htk Hn Hc.
    set (st1 := mkState (with_commands (node st) (Bound [])) (instances st) (roots st)
                  (native st ++ map (Ndeletecommand h) (keys d))).
    assert (HasTcl__tk (node st1) = Bound h) as Htk1
      by (subst st1; cbn [node]; destruct (node st); exact Htk).
    assert (HasTcl__tcl_varname (node st1) = Missing) as Hn1
      by (subst st1; cbn [node]; destruct (node st); exact Hn).
    destruct (getattr_do_eq st1 h [] Htk1) as (do & Hget & _).
    unfold HasTclCommands___del__.
    rewrite (bind_eq _ _ _ _ _ (tuple_of_commands_eq st d Hc)).
    rewrite (bind_eq _ _ _ _ _ (teardown_loop d st h Htk Hc)). fold st1.
    rewrite (bind_eq _ _ _ _ _ Hget).
    apply bind_raise_eq. unfold HasTcl_tcl_varname, read, bind, get_node.
    rewrite Hn1. reflexivity.
  - intros k v d Htk Hc. unfold HasTclCommands___del__.
    rewrite (bind_eq _ _ _ _ _ (tuple_of_commands_eq st _ Hc)).
    apply bind_raise_eq. cbn [keys map fst for_each]. apply bind_raise_eq.
    assert (HasTcl__tk (with_commands (node st) (Bound d)) = Missing) as Htk'
      by (destruct (node st); exact Htk).
    unfold commands_pop, HasTclCommands_commands, read, bind, get_node.
    rewrite Hc. cbn iota beta. unfold ret at 1. rewrite dict_mem_head, dict_del_head.
    cbn [negb]. cbn iota. unfold put_node, modify. cbn iota beta.
    unfold HasTcl_deletecommand, the_handle, HasTcl_tk, read, bind, get_node.
    cbn [node]. rewrite Htk'. reflexivity.
Qed.

(** X19.  A teardown that returned has emptied the commands mapping:
    running it again issues no delete-command, only the destroy instruction
    a second time. *)
Theorem second_teardown_only_repeats_destroy st h n d :
  HasTcl__tk (node st) = Bound h ->
  HasTcl__tcl_varname (node st) = Bound n ->
  HasTclCommands__tcl_commands (node st) = Bound d ->
  exists st1,
    HasTclCommands___del__ st = Return tt st1
    /\ HasTclCommands__tcl_commands (node st1) = Bound []
    /\ issued_by HasTclCommands___del__ st1
       = [Ncall (do_handle (node st) h) [VStr TCL_DESTROY; VStr n]].
Proof.
  intros Htk Hn Hc. eexists. split; [apply (HasTclCommands_del_eq st h n d Htk Hn Hc)|].
  match goal with |- context [node ?s] => set (st1 := s) end.
  assert (HasTcl__tk (node st1) = Bound h) as Htk1
    by (subst st1; cbn [node]; destruct (node st); exact Htk).
  assert (HasTcl__tcl_varname (node st1) = Bound n) as Hn1
    by (subst st1; cbn [node]; destruct (node st); exact Hn).
  assert (HasTclCommands__tcl_commands (node st1) = Bound []) as Hc1
    by (subst st1; cbn [node]; destruct (node st); reflexivity).
  assert (do_handle (node st1) h = do_handle (node st) h) as Hdo
    by (subst st1; cbn [node]; destruct (node st); reflexivity).
  split; [exact Hc1|].
  unfold issued_by. rewrite (HasTclCommands_del_eq st1 h n [] Htk1 Hn1 Hc1).
  cbn [final_state native keys map]. rewrite drop_app_length, Hdo. reflexivity.
Qed.

Lemma alias_costs_one_more_delete_witness :
  exists st1,
    addalias "click" "140__call__" sample_root = Return tt st1
    /\ issued_by HasTclCommands___del__ st1
       = [Ndeletecommand 1 "140__call__"; Ndeletecommand 1 "152__call__";
          Ndeletecommand 1 "click"; Ncall 1 [VStr "destroy"; VStr "."]].
Proof.
  refine (proj2 (alias_costs_one_more_delete sample_root 1 "." _ "click" "140__call__"
                   eq_refl eq_refl eq_refl) eq_refl _).
  intros [H|[H|[]]]; discriminate H.
Defined.

Lemma registry_constructor_rejects_every_configuration_witness :
  raises (HasTclCommands___init__ [("command", VFun 1)] (state_of fresh_HasTclCommands)).
Proof.
  refine (proj1 (registry_constructor_rejects_every_configuration [("command", VFun 1)]
                   (state_of fresh_HasTclCommands) _)).
  discriminate.
Defined.

Lemma second_teardown_only_repeats_destroy_witness :
  exists st1,
    HasTclCommands___del__ sample_root = Return tt st1
    /\ HasTclCommands__tcl_commands (node st1) = Bound []
    /\ issued_by HasTclCommands___del__ st1 = [Ncall 1 [VStr "destroy"; VStr "."]].
Proof.
  exact (second_teardown_only_repeats_destroy sample_root 1 "." _ eq_refl eq_refl eq_refl).
Defined.

(** ** Children, the pool and the tracker *)

Lemma with_children_idem n a b : with_children (with_children n a) b = with_children n b.
Proof. destruct n; reflexivity. Qed.

Lemma children_remove_eq st s child :
  HasChildren__children (node st) = Bound s ->
  child ∈ s ->
  children_remove child st
  = Return tt (mkState (with_children (node st) (Bound (s ∖ {[child]})))
                 (instances st) (roots st) (native st)).
Proof.
  intros Hs Hin. unfold children_remove, HasChildren_children, read, bind, get_node.
  rewrite Hs. cbn iota beta. unfold ret at 1. rewrite decide_True by exact Hin. reflexivity.
Qed.

Lemma remove_each l : forall st s,
  HasChildren__children (node st) = Bound s ->
  NoDup l ->
  (forall x, x ∈ l -> x ∈ s) ->
  for_each l children_remove st
  = Return tt (mkState (with_children (node st) (Bound (s ∖ list_to_set l)))
                 (instances st) (roots st) (native st)).
Proof.
  induction l as [|x l IH]; intros st s Hs Hnd Hall.
  - cbn [for_each list_to_set]. unfold ret.
    replace (s ∖ ∅) with s by (apply set_eq; intros y; rewrite elem_of_difference, elem_of_empty; tauto).
    destruct st as [n i r o]. cbn in *. destruct n; cbn in *. subst. reflexivity.
  - apply NoDup_cons in Hnd as [Hx Hnd]. cbn [for_each].
    rewrite (bind_eq _ _ _ _ _ (children_remove_eq st s x Hs (Hall x (list_elem_of_here _ _)))).
    rewrite (IH _ (s ∖ {[x]})); cbn [node instances roots native].
    + rewrite with_children_idem.
      replace (s ∖ {[x]} ∖ list_to_set l) with (s ∖ list_to_set (x :: l)); [reflexivity|].
      apply set_eq. intros y. cbn [list_to_set].
      rewrite !elem_of_difference, elem_of_union, elem_of_singleton. tauto.
    + destruct (node st); reflexivity.
    + exact Hnd.
    + intros y Hy. rewrite elem_of_difference, elem_of_singleton. split.
      * apply Hall. right. exact Hy.
      * intros ->. contradiction.
Qed.

Lemma HasChildren_del_eq st s :
  HasChildren__children (node st) = Bound s ->
  HasChildren___del__ st
  = Return tt (mkState (with_children (node st) (Bound ∅))
                 (instances st) (roots st) (native st)).
Proof.
  intros Hs. unfold HasChildren___del__, HasChildren_children, read.
  unfold bind at 1. unfold bind at 1. unfold get_node at 1. rewrite Hs.
  cbn iota beta. unfold ret at 1. cbn iota beta.
  rewrite (remove_each (elements s) st s Hs (NoDup_elements s)).
  - replace (s ∖ list_to_set (elements s)) with (∅ : gset nat); [reflexivity|].
    apply set_eq. intros y.
    rewrite elem_of_difference, elem_of_list_to_set, elem_of_elements, elem_of_empty. tauto.
  - intros x Hx. apply elem_of_elements. exact Hx.
Qed.



Lemma index_of_first x pre post :
  ~ In x pre -> index_of x (pre ++ x :: post) = Some (length pre).
Proof.
  induction pre as [|y pre IH]; intros Hn; cbn [app index_of length].
  - rewrite Nat.eqb_refl. reflexivity.
  - destruct (Nat.eqb_spec y x) as [->|Hne]; [exfalso; apply Hn; left; reflexivity|].
    rewrite IH; [reflexivity|]. intros H. apply Hn. right. exact H.
Qed.

Lemma index_of_absent x l : ~ In x l -> index_of x l = None.
Proof.
  induction l as [|y l IH]; intros Hn; cbn [index_of]; [reflexivity|].
  destruct (Nat.eqb_spec y x) as [->|Hne]; [exfalso; apply Hn; left; reflexivity|].
  rewrite IH; [reflexivity|]. intros H. apply Hn. right. exact H.
Qed.

Lemma pop_at_middle (x : nat) pre post : pop_at (length pre) (pre ++ x :: post) = (pre ++ post)%list.
Proof. induction pre as [|y pre IH]; cbn [app length pop_at]; [|rewrite IH]; reflexivity. Qed.

Lemma delroot_cases st root :
  (forall pre post,
     roots st = (pre ++ root :: post)%list -> ~ In root pre ->
     delroot root st
     = Return tt (mkState (node st) (instances st) (pre ++ post) (native st)))
  /\ (~ In root (roots st) -> delroot root st = Raise ValueError st).
Proof.
  split.
  - intros pre post Hr Hn. unfold delroot, bind, get. rewrite Hr.
    rewrite (index_of_first root pre post Hn). unfold put_roots, modify.
    rewrite pop_at_middle. reflexivity.
  - intros Hn. unfold delroot, bind, get. rewrite (index_of_absent root _ Hn). reflexivity.
Qed.

(** X21.  [delroot] takes one session out of the pool: the first
    occurrence of the session is removed and the others keep their order;
    a session that is not in the pool raises [ValueError] and the pool is
    unchanged. *)
Theorem delroot_removes_the_first_occurrence st root :
  (forall pre post,
     roots st = (pre ++ root :: post)%list -> ~ In root pre ->
     delroot root st
     = Return tt (mkState (node st) (instances st) (pre ++ post) (native st)))
  /\ (~ In root (roots st) -> delroot root st = Raise ValueError st).
Proof. apply delroot_cases. Qed.

(** X22.  Destroying a session that has a handle, a variable name, a
    commands mapping and a child set runs the whole teardown before it
    looks at the pool: the commands mapping and the child set end up empty
    and the destroy instruction is issued whether or not the session is in
    the pool; a session in the pool is then removed from it and the
    destructor returns, one that is not makes it raise [ValueError]. *)
Theorem root_destruction_unwinds_then_leaves_the_pool self st h n d s :
  HasTcl__tk (node st) = Bound h ->
  HasTcl__tcl_varname (node st) = Bound n ->
  HasTclCommands__tcl_commands (node st) = Bound d ->
  HasChildren__children (node st) = Bound s ->
  let torn :=
    with_children (with_commands (node st) (Bound [])) (Bound ∅) in
  let log :=
    (native st ++ map (Ndeletecommand h) (keys d)
       ++ [Ncall (do_handle (node st) h) [VStr TCL_DESTROY; VStr n]])%list in
  (forall pre post,
     roots st = (pre ++ self :: post)%list -> ~ In self pre ->
     Root___del__ self st = Return tt (mkState torn (instances st) (pre ++ post) log))
  /\ (~ In self (roots st) ->
      Root___del__ self st = Raise ValueError (mkState torn (instances st) (roots st) log)).
Proof.
  intros Htk Hn Hc Hs torn log.
  pose proof (HasTclCommands_del_eq st h n d Htk Hn Hc) as Hd. fold log in Hd.
  set (st1 := mkState (with_commands (node st) (Bound [])) (instances st) (roots st) log) in *.
  assert (HasChildren__children (node st1) = Bound s) as Hs1
    by (subst st1; cbn [node]; destruct (node st); exact Hs).
  pose proof (HasChildren_del_eq st1 s Hs1) as Hch.
  cbn [node instances roots native] in Hch. fold torn in Hch.
  set (st2 := mkState torn (instances st) (roots st) log) in *.
  pose proof (delroot_cases st2 self) as [Hin Hout].
  unfold Root___del__.
  rewrite (bind_eq _ _ _ _ _ Hd), (bind_eq _ _ _ _ _ Hch). split.
  - intros pre post Hr Hn'. apply (Hin pre post Hr Hn').
  - intros Hn'. apply (Hout Hn').
Qed.

Lemma root_destruction_unwinds_then_leaves_the_pool_witness :
  Root___del__ 1 sample_root
  = Return tt
      (mkState (with_children (with_commands (node sample_root) (Bound [])) (Bound ∅))
         Missing []
         [Ndeletecommand 1 "140__call__"; Ndeletecommand 1 "152__call__";
          Ncall 1 [VStr "destroy"; VStr "."]]).
Proof.
  refine (proj1 (root_destruction_unwinds_then_leaves_the_pool 1 sample_root 1 "." _ ∅
                   eq_refl eq_refl eq_refl eq_refl) [] [] eq_refl _).
  intros [].
Defined.

(** X23.  The tracker of a class: adding an instance it does not hold
    makes it one larger, removing that instance again restores the tracker
    exactly, and removing an instance it does not hold raises [KeyError]
    and changes nothing. *)
Theorem tracker_add_then_remove_restores st s i :
  instances st = Bound s ->
  i ∉ s ->
  exists st1,
    addinstance i st = Return tt st1
    /\ instances st1 = Bound (s ∪ {[i]})
    /\ size (s ∪ {[i]}) = S (size s)
    /\ delinstance i st1 = Return tt st
    /\ delinstance i st = Raise KeyError st.
Proof.
  intros Hs Hi.
  set (st1 := mkState (node st) (Bound (s ∪ {[i]})) (roots st) (native st)).
  exists st1. split.
  { unfold addinstance, getinstances, bind. rewrite Hs. reflexivity. }
  split; [reflexivity|]. split.
  { rewrite size_union, size_singleton, Nat.add_1_r; [reflexivity|].
    apply disjoint_singleton_r. exact Hi. }
  split.
  - rewrite (delinstance_tracked i st1 (s ∪ {[i]}) eq_refl)
      by (apply elem_of_union; right; apply elem_of_singleton; reflexivity).
    cbn [st1 node roots native].
    replace ((s ∪ {[i]}) ∖ {[i]}) with s.
    + destruct st; cbn in *; subst; reflexivity.
    + apply set_eq. intros y.
      rewrite elem_of_difference, elem_of_union, elem_of_singleton.
      split; [intros H; split; [left; exact H | intros ->; contradiction] | tauto].
  - apply (delinstance_untracked i st s Hs Hi).
Qed.

Lemma tracker_add_then_remove_restores_witness :
  exists st1,
    addinstance 7%nat no_button = Return tt st1
    /\ delinstance 7%nat st1 = Return tt no_button.
Proof.
  destruct (tracker_add_then_remove_restores no_button ∅ 7%nat eq_refl
              (not_elem_of_empty (C := gset nat) 7%nat))
    as (st1 & H1 & _ & _ & H2 & _).
  exists st1. split; assumption.
Defined.

(** ** Names *)



(** X25.  Under one parent, widgets of one class constructed one after
    the other with no destruction in between get pairwise distinct tree
    paths: each is the parent's path, an exclamation mark, the derived name
    and a dot. *)
Theorem uninterrupted_constructions_get_distinct_paths parent st s ids :
  instances st = Bound s ->
  NoDup ids ->
  (forall i, In i ids -> i ∉ s) ->
  exists paths,
    map (path_under parent) (map snd (live_run (map Construct ids) st)) = map Some paths
    /\ length paths = length ids
    /\ NoDup paths.
Proof.
  intros Hs Hnd Hfresh.
  rewrite (live_run_constructions ids st s Hs Hnd Hfresh).
  change (map snd ?l) with (l.*2). rewrite snd_zip by (rewrite length_map, length_seq; lia).
  set (cls := class_name (node st)).
  set (suffix := fun k => if Nat.eqb k 0 then lower cls else lower cls ++ str_of_nat k).
  assert (forall k, name_at cls k = VStr (suffix k)) as Hname
    by (intros k; unfold name_at, suffix; destruct (Nat.eqb k 0); reflexivity).
  exists (map (fun k => tree_path parent (suffix k)) (seq (size s) (length ids))).
  split; [|split].
  - rewrite !map_map. apply map_ext. intros k. rewrite Hname. reflexivity.
  - rewrite length_map, length_seq. reflexivity.
  - apply (@NoDup_fmap_2 _ _ (fun k => tree_path parent (suffix k))); [|apply NoDup_seq].
    intros i j H. apply tree_path_inj in H. apply (name_at_inj cls).
    rewrite !Hname, H. reflexivity.
Qed.

Lemma uninterrupted_constructions_get_distinct_paths_witness :
  exists paths,
    map (path_under ".") (map snd (live_run (map Construct [1; 2]%nat) no_button))
    = map Some paths
    /\ length paths = 2%nat
    /\ NoDup paths.
Proof.
  refine (uninterrupted_constructions_get_distinct_paths "." no_button ∅ [1; 2]%nat
            eq_refl _ _).
  - apply (bool_decide_unpack (NoDup [1; 2]%nat)). reflexivity.
  - intros i _. apply not_elem_of_empty.
Defined.

(** ** Sessions *)

(** X26.  No session can be constructed.  [get_runningfile] raises
    [NameError] whatever it is given, and so does the constructor of a
    session, with or without a [basename]: the object is left without
    handle, registry or child set, and nothing is issued. *)
Theorem session_constructor_always_raises
    (basename : string -> string) (splitext : string -> string * string)
    (argv0 : string) :
  (forall exempt (st : State),
     get_runningfile basename splitext argv0 exempt st = Raise NameError st)
  /\ (forall basename_arg debugger st,
        Root___init__ basename splitext argv0 basename_arg debugger st
        = Raise NameError st).
Proof.
  assert (forall exempt (st : State),
            get_runningfile basename splitext argv0 exempt st = Raise NameError st) as Hrun.
  { intros exempt st. unfold get_runningfile. destruct (splitext (basename argv0)).
    reflexivity. }
  split; [exact Hrun|].
  intros [b|] debugger st; unfold Root___init__.
  - reflexivity.
  - apply bind_raise_eq. apply Hrun.
Qed.

(** ** Construction of widgets *)

Lemma HasParent_set_parent_unset st p :
  HasParent__parent (node st) = PyNone ->
  HasParent_set_parent (Some p) st
  = Return tt (mkState (with_parent (node st) (Bound p)) (instances st) (roots st)
                 (native st)).
Proof. intros H. unfold HasParent_set_parent. rewrite write_once_unset by exact H. reflexivity. Qed.

(** [HasParent.__init__] with a parent that owns children, on a widget
    that has none yet. *)
Lemma HasParent_init_links self p fam s :
  existsb (String.eqb "HasChildren") (parent_bases fam) = true ->
  HasParent__parent (node (child fam)) = PyNone ->
  HasChildren__children (parent_node fam) = Bound s ->
  HasParent___init__ self (Some p) fam
  = Return tt
      (mkFamily
         (mkState (with_parent (node (child fam)) (Bound p)) (instances (child fam))
            (roots (child fam)) (native (child fam)))
         (with_children (parent_node fam) (Bound (s ∪ {[self]})))
         (parent_bases fam) (widgetname_attr fam)).
Proof.
  intros Hb Hp Hs. unfold HasParent___init__.
  unfold bind at 1. unfold ret at 1. unfold bind at 1. unfold parent_isinstance at 1.
  rewrite Hb. cbn [negb].
  unfold bind at 1. unfold lift at 1. rewrite (HasParent_set_parent_unset _ p Hp).
  unfold bind at 1. unfold lift at 1. cbn [child].
  unfold HasParent_parent, read, bind at 1, get_node. cbn [node].
  assert (HasParent__parent (with_parent (node (child fam)) (Bound p)) = Bound p) as ->
    by (destruct (node (child fam)); reflexivity).
  cbn iota beta. unfold ret at 1.
  unfold bind at 1. unfold parent_read at 1. cbn [parent_node]. rewrite Hs.
  reflexivity.
Qed.

(** X27.  The widget constructor fails on its first statement, with the
    widget and the parent unchanged, in four cases: without a parent it
    raises [TypeError]; under an object that is no [HasChildren] it raises
    [RuntimeError]; on a widget whose [_HasParent__parent] is not bound it
    raises [AttributeError] (the class binds [_BareWidget__parent], so this
    is every newly allocated widget); on a widget that already has a parent
    it raises the re-instantiation error. *)
Theorem widget_construction_checks_the_parent self widgetname kw fam :
  BareWidget___init__ self widgetname None kw fam = Raise TypeError fam
  /\ (forall p,
        existsb (String.eqb "HasChildren") (parent_bases fam) = false ->
        BareWidget___init__ self widgetname (Some p) kw fam = Raise RuntimeError fam)
  /\ (forall p,
        existsb (String.eqb "HasChildren") (parent_bases fam) = true ->
        HasParent__parent (node (child fam)) = Missing ->
        BareWidget___init__ self widgetname (Some p) kw fam = Raise AttributeError fam)
  /\ (forall p q,
        existsb (String.eqb "HasChildren") (parent_bases fam) = true ->
        HasParent__parent (node (child fam)) = Bound q ->
        exists msg,
          BareWidget___init__ self widgetname (Some p) kw fam
          = Raise (InstantiatedError msg) fam).
Proof.
  split; [reflexivity|]. split; [|split].
  - intros p Hb. unfold BareWidget___init__. apply bind_raise_eq.
    unfold HasParent___init__, bind, ret, parent_isinstance. rewrite Hb. reflexivity.
  - intros p Hb Hq. unfold BareWidget___init__. apply bind_raise_eq.
    unfold HasParent___init__.
    unfold bind at 1. unfold ret at 1. unfold bind at 1. unfold parent_isinstance at 1.
    rewrite Hb. cbn [negb]. apply bind_raise_eq. unfold lift.
    unfold HasParent_set_parent. rewrite (write_once_missing _ _ _ _ _ Hq).
    destruct fam; reflexivity.
  - intros p q Hb Hq. eexists. unfold BareWidget___init__. apply bind_raise_eq.
    unfold HasParent___init__.
    unfold bind at 1. unfold ret at 1. unfold bind at 1. unfold parent_isinstance at 1.
    rewrite Hb. cbn [negb]. apply bind_raise_eq. unfold lift.
    unfold HasParent_set_parent. rewrite (write_once_guarded _ _ _ _ q _ Hq).
    destruct fam; reflexivity.
Qed.

Lemma untouched_refl fam : untouched fam fam.
Proof. repeat split. Qed.

Lemma untouched_trans f1 f2 f3 : untouched f1 f2 -> untouched f2 f3 -> untouched f1 f3.
Proof.
  intros (A1 & A2 & A3 & A4) (B1 & B2 & B3 & B4).
  repeat split; congruence.
Qed.

Lemma doomed_raise {A} e : doomed (@raise Family A e).
Proof. intros fam _. split; [eexists _, _; reflexivity | apply untouched_refl]. Qed.

Lemma doomed_bind {A B} (m : M Family A) (k : A -> M Family B) :
  careful m -> (forall a, doomed (k a)) -> doomed (bind m k).
Proof.
  intros Hm Hk fam Hf. specialize (Hm fam). unfold bind.
  destruct (m fam) as [a fam1|e fam1]; cbn [final_state] in *.
  - destruct (Hk a fam1) as [Hr Hu].
    + destruct Hm as (_ & _ & _ & Hfl). rewrite Hfl. exact Hf.
    + split; [exact Hr | eapply untouched_trans; eassumption].
  - split; [eexists _, _; reflexivity | exact Hm].
Qed.

Lemma careful_lift_reader {A} (m : M State A) :
  (forall st, final_state (m st) = st) -> careful (lift m).
Proof.
  intros Hm fam. unfold lift. specialize (Hm (child fam)).
  destruct (m (child fam)); cbn in *; subst; repeat split.
Qed.

Lemma BareWidget_name_reads kw st : final_state (BareWidget_name kw st) = st.
Proof.
  unfold BareWidget_name. destruct (falsy _); [|reflexivity].
  unfold bind, get_node, getinstances.
  destruct (instances st) as [| |s]; try reflexivity.
  cbn. destruct (Nat.eqb (size s) 0); reflexivity.
Qed.

Lemma careful_parent_read {A} (field : Node -> slot A) : careful (parent_read field).
Proof.
  intros fam. unfold parent_read. destruct (field (parent_node fam)); apply untouched_refl.
Qed.

Lemma careful_parent_isinstance cls : careful (parent_isinstance cls).
Proof. intros fam. apply untouched_refl. Qed.

Lemma careful_ret {A} (a : A) : careful (ret a).
Proof. intros fam. apply untouched_refl. Qed.

Lemma careful_set_tk tk : careful (lift (HasTcl_set_tk tk)).
Proof.
  intros fam. unfold lift, HasTcl_set_tk, write_once, bind, get_node.
  destruct (HasTcl__tk (node (child fam))); cbn; unfold untouched; cbn;
    repeat split; reflexivity.
Qed.

(** The registry constructor on an object whose [__flags] is not [None]. *)
Lemma registry_constructor_doomed kw st :
  HasTclCommands__flags (node st) <> PyNone ->
  let o := HasTclCommands___init__ kw st in
  raises o
  /\ instances (final_state o) = instances st
  /\ native (final_state o) = native st
  /\ HasTclCommands__flags (node (final_state o)) = HasTclCommands__flags (node st).
Proof.
  intros Hf o. subst o. unfold HasTclCommands___init__, HasTclCommands_set_commands,
    HasTclCommands_set_flags.
  destruct (HasTclCommands__tcl_commands (node st)) as [| |d] eqn:Hc.
  - rewrite (bind_raise_eq _ _ _ _ _ (write_once_missing _ _ _ st _ Hc)).
    split; [eexists _, _; reflexivity | repeat split].
  - rewrite (bind_eq _ _ _ _ _ (write_once_unset _ _ _ st _ Hc)).
    match goal with |- context [bind _ _ ?s] => set (st1 := s) end.
    assert (HasTclCommands__flags (node st1) = HasTclCommands__flags (node st)) as Hsame
      by (subst st1; cbn [node]; destruct (node st); reflexivity).
    destruct (HasTclCommands__flags (node st1)) as [| |f] eqn:Hf1.
    + rewrite (bind_raise_eq _ _ _ _ _ (write_once_missing _ _ _ st1 _ Hf1)).
      split; [eexists _, _; reflexivity|]. cbn [final_state]. rewrite Hf1.
      repeat split. exact Hsame.
    + exfalso. apply Hf. congruence.
    + rewrite (bind_raise_eq _ _ _ _ _ (write_once_guarded _ _ _ st1 f _ Hf1)).
      split; [eexists _, _; reflexivity|]. cbn [final_state]. rewrite Hf1.
      repeat split. exact Hsame.
  - rewrite (bind_raise_eq _ _ _ _ _ (write_once_guarded _ _ _ st d _ Hc)).
    split; [eexists _, _; reflexivity | repeat split].
Qed.

Lemma doomed_registry {B} kw (rest : unit -> M Family B) :
  doomed (bind (lift (HasTclCommands___init__ kw)) rest).
Proof.
  intros fam Hf.
  destruct (registry_constructor_doomed kw (child fam) Hf) as ((e & st' & Hr) & Hi & Hn & Hfl).
  unfold bind, lift. rewrite Hr in *. cbn [final_state] in *.
  split; [eexists _, _; reflexivity|]. repeat split; assumption.
Qed.

(** X28.  A construction that gets past the parent link is not undone
    when it fails.  On a widget whose [_HasParent__parent] is [None], under
    a parent that has a child set, the constructor adds the widget to that
    set first; while the widget's [__flags] is not [None] (it is unbound
    unless bound by hand) the constructor then raises, and the widget stays
    in its parent's child set, with the tracker of its class and the log of
    native operations as they were: no creation instruction is issued. *)
Theorem failed_construction_stays_in_the_child_set self widgetname p kw fam s :
  existsb (String.eqb "HasChildren") (parent_bases fam) = true ->
  HasParent__parent (node (child fam)) = PyNone ->
  HasChildren__children (parent_node fam) = Bound s ->
  HasTclCommands__flags (node (child fam)) <> PyNone ->
  let o := BareWidget___init__ self widgetname (Some p) kw fam in
  raises o
  /\ HasChildren__children (parent_node (final_state o)) = Bound (s ∪ {[self]})
  /\ instances (child (final_state o)) = instances (child fam)
  /\ native (child (final_state o)) = native (child fam).
Proof.
  intros Hb Hp Hs Hf o. subst o. unfold BareWidget___init__.
  rewrite (bind_eq _ _ _ _ _ (HasParent_init_links self p fam s Hb Hp Hs)).
  match goal with |- context [bind _ _ ?f] => set (fam1 := f) end.
  assert (HasTclCommands__flags (node (child fam1)) <> PyNone) as Hf1.
  { subst fam1. cbn [child node]. destruct (node (child fam)); exact Hf. }
  match goal with |- context [bind ?m ?k fam1] =>
    assert (doomed (bind m k)) as Hdoom end.
  { apply doomed_bind; [apply careful_lift_reader, BareWidget_name_reads|]. intros name.
    apply doomed_bind; [apply careful_parent_isinstance|]. intros has_tcl.
    destruct (negb has_tcl); [apply doomed_raise|].
    apply doomed_bind; [apply careful_parent_read|]. intros tk.
    apply doomed_bind; [apply careful_set_tk|]. intros _.
    apply doomed_registry. }
  destruct (Hdoom fam1 Hf1) as (Hr & Hpn & Hi & Hn & _).
  split; [exact Hr|]. rewrite Hpn, Hi, Hn. subst fam1. cbn [parent_node child instances native].
  split; [|split; reflexivity].
  destruct (parent_node fam); reflexivity.
Qed.

Lemma failed_construction_stays_in_the_child_set_witness :
  let o := BareWidget___init__ 7 (VStr "ttk::button") (Some 1%nat) [("text", VStr "hi")]
             sample_family in
  raises o
  /\ HasChildren__children (parent_node (final_state o)) = Bound (∅ ∪ {[7%nat]})
  /\ instances (child (final_state o)) = Bound ∅
  /\ native (child (final_state o)) = [].
Proof.
  refine (failed_construction_stays_in_the_child_set 7 (VStr "ttk::button") 1
            [("text", VStr "hi")] sample_family ∅ eq_refl eq_refl eq_refl _).
  discriminate.
Defined.

(** ** The module's own test *)

Section SelfTestMore.

Variable fn_body : nat -> list pyval -> pyval + exn.

(** The chained comparison of the test on integer bounds. *)
Lemma within_eq w b lo hi en n :
  bounds w !! b = Some (mkBounds (VInt lo) (VInt hi) en) ->
  within b (VInt n) w = Return ((lo <=? n) && (n <=? hi))%bool w.
Proof.
  intros Hb. unfold within.
  rewrite (bind_eq _ _ _ _ _ (load_Bounds_eq w b _ Hb)).
  cbn [Bounds__minimum py_le]. unfold bind at 1. unfold ret at 1.
  destruct (lo <=? n); cbn [andb]; [|reflexivity].
  rewrite (bind_eq _ _ _ _ _ (load_Bounds_eq w b _ Hb)). reflexivity.
Qed.

(** The loop of [test_bounds] on a variable whose only observer is the
    [enforce] of a [Bounds] with integer bounds: it ends without a failed
    assertion, on every list of integers. *)
Lemma test_bounds_loop_passes a b k lo hi ns : forall w x,
  variables w !! a = Some (mkVariable (Some [(k, VEnforce b)]) (VInt x)) ->
  bounds w !! b = Some (mkBounds (VInt lo) (VInt hi) (VVar a)) ->
  exists w', test_bounds_loop fn_body a b ns w = Return true w'.
Proof.
  induction ns as [|n rest IH]; intros w x Hv Hb; [eexists; reflexivity|].
  cbn [test_bounds_loop].
  pose proof (Variable_set_value_eq fn_body w a _ [(k, VEnforce b)] (VInt n) Hv eq_refl eq_refl)
    as Hset. cbv zeta in Hset.
  set (vars' := <[a:=mkVariable (Some [(k, VEnforce b)]) (VInt n)]> (variables w)) in *.
  assert (vars' !! a = Some (mkVariable (Some [(k, VEnforce b)]) (VInt n))) as Hv'.
  { subst vars'. apply list_lookup_insert_eq. apply lookup_lt_Some in Hv. exact Hv. }
  cbn [first_raise observer_raises] in Hset.
  rewrite (enforce_raises_int vars' (bounds w) a b _ lo hi n Hv' Hb) in Hset.
  match type of Hset with context [Return tt ?t] => set (w1 := t) in * end.
  assert (variables w1 !! a = Some (mkVariable (Some [(k, VEnforce b)]) (VInt n))) as Hv1
    by exact Hv'.
  assert (bounds w1 !! b = Some (mkBounds (VInt lo) (VInt hi) (VVar a))) as Hb1 by exact Hb.
  pose proof (within_eq w1 b lo hi (VVar a) n Hb1) as Hin.
  destruct ((lo <=? n) && (n <=? hi))%bool eqn:Hrange.
  - rewrite (bind_eq _ _ _ _ _ Hset). rewrite Hin. apply (IH w1 n Hv1 Hb1).
  - rewrite (bind_raise_eq _ _ _ _ _ Hset). cbn [is_RuntimeError].
    rewrite Hin. apply (IH w1 n Hv1 Hb1).
Qed.

(** X29.  The module's own test passes: whatever the functions and the
    heap it starts from, [test_bounds] ends without a failed assertion and
    without an exception that escapes it, so [test()] returns [True]. *)
Theorem module_test_passes (w : World) : test fn_body w = true.
Proof.
  unfold test, test_bounds.
  rewrite (bind_eq _ _ _ _ _ (new_Variable_initial_write fn_body (VInt 5) w eq_refl)).
  set (a := length (variables w)).
  set (w1 := mkWorld (variables w ++ [mkVariable (Some []) (VInt 5)]) (bounds w) (calls w)).
  assert (variables w1 !! a = Some (mkVariable (Some []) (VInt 5))) as Hv.
  { subst w1 a. cbn [variables]. rewrite lookup_app_r by lia.
    rewrite Nat.sub_diag. reflexivity. }
  rewrite (bind_eq _ _ _ _ _ (new_Bounds_in_order w1 a [] 5 0 10 Hv ltac:(lia))).
  set (b := length (bounds w1)).
  match goal with |- context [test_bounds_loop _ _ _ _ ?t] => set (w2 := t) end.
  destruct (test_bounds_loop_passes a b (str_of_Z (Z.of_nat b)) 0 10
              (map Z.of_nat (seq 0 20)) w2 5) as [w' Hw'].
  - subst w2. cbn [variables dict_set]. apply list_lookup_insert_eq.
    apply lookup_lt_Some in Hv. exact Hv.
  - subst w2 b. cbn [bounds]. rewrite lookup_app_r by lia.
    rewrite Nat.sub_diag. reflexivity.
  - rewrite Hw'. reflexivity.
Qed.

End SelfTestMore.

(** ** The case analyses at concrete objects *)

Lemma observers_setitem_then_getitem_witness :
  Observers___setitem__ [] (KInt 140) VNone empty_world = Raise ValueError empty_world
  /\ exists d',
       Observers___setitem__ [("140", VFun 0); ("x", VFun 1)] (KInt 140) (VEnforce 0)
         empty_world = Return d' empty_world
       /\ Observers___getitem__ d' "140" empty_world = Return (VEnforce 0) empty_world
       /\ dict_get d' "x" = Some (VFun 1)
       /\ keys d' = ["140"; "x"].
Proof.
  split.
  - exact (proj1 (observers_setitem_then_getitem [] (KInt 140) VNone empty_world) eq_refl).
  - destruct (proj2 (observers_setitem_then_getitem [("140", VFun 0); ("x", VFun 1)]
                       (KInt 140) (VEnforce 0) empty_world) eq_refl)
      as (d' & H1 & H2 & H3 & H4).
    exists d'. split; [exact H1|]. split; [exact H2|]. split.
    + rewrite (H3 "x"); [reflexivity | discriminate].
    + exact (H4 eq_refl).
Defined.

Lemma variable_constructor_cases_witness :
  new_Variable sample_body (VFun 1) (VInt 5) empty_world
  = Return 0%nat (mkWorld [mkVariable (Some []) (VInt 5)] [] [])
  /\ new_Variable sample_body (VInt 1) VNone empty_world
     = Raise ValueError (mkWorld [mkVariable (Some []) VNone] [] [])
  /\ new_Variable sample_body (VFun 1) VNone empty_world
     = Return 0%nat (mkWorld [mkVariable (Some []) (VInt 2)] [] [(VFun 1, [])]).
Proof.
  split; [|split].
  - exact (proj1 (variable_constructor_cases sample_body (VFun 1) (VInt 5) empty_world)
             eq_refl).
  - exact (proj1 (proj2 (variable_constructor_cases sample_body (VInt 1) VNone empty_world))
             eq_refl eq_refl).
  - exact (proj2 (proj2 (variable_constructor_cases sample_body (VFun 1) VNone empty_world))
             1%nat (VInt 2) eq_refl eq_refl eq_refl).
Defined.

Lemma failed_teardown_is_not_rolled_back_witness :
  HasTclCommands___del__
    (mkState (with_tcl_varname (node sample_root) Missing) Missing [1%nat] [])
  = Raise AttributeError
      (mkState (with_commands (with_tcl_varname (node sample_root) Missing) (Bound []))
         Missing [1%nat] [Ndeletecommand 1 "140__call__"; Ndeletecommand 1 "152__call__"])
  /\ HasTclCommands___del__ (mkState (with_tk (node sample_root) Missing) Missing [1%nat] [])
     = Raise AttributeError
         (mkState (with_commands (with_tk (node sample_root) Missing)
                     (Bound [("152__call__", VGroup [VFun 1])]))
            Missing [1%nat] []).
Proof.
  split.
  - exact (proj1 (failed_teardown_is_not_rolled_back
                    (mkState (with_tcl_varname (node sample_root) Missing) Missing [1%nat] []))
             1%nat _ eq_refl eq_refl eq_refl).
  - exact (proj2 (failed_teardown_is_not_rolled_back
                    (mkState (with_tk (node sample_root) Missing) Missing [1%nat] []))
             _ _ _ eq_refl eq_refl).
Defined.

Lemma delroot_removes_the_first_occurrence_witness :
  delroot 2 (mkState (node sample_root) Missing [1%nat; 2%nat; 3%nat; 2%nat] [])
  = Return tt (mkState (node sample_root) Missing [1%nat; 3%nat; 2%nat] [])
  /\ delroot 4 sample_root = Raise ValueError sample_root.
Proof.
  split.
  - refine (proj1 (delroot_removes_the_first_occurrence
                     (mkState (node sample_root) Missing [1%nat; 2%nat; 3%nat; 2%nat] []) 2)
              [1%nat] [3%nat; 2%nat] eq_refl _).
    intros [H|[]]; discriminate H.
  - refine (proj2 (delroot_removes_the_first_occurrence sample_root 4) _).
    intros [H|[]]; discriminate H.
Defined.

Lemma widget_construction_checks_the_parent_witness :
  BareWidget___init__ 7 (VStr "ttk::button") None [] sample_family
  = Raise TypeError sample_family
  /\ BareWidget___init__ 7 (VStr "ttk::button") (Some 1%nat) [] sample_orphan
     = Raise RuntimeError sample_orphan
  /\ BareWidget___init__ 7 (VStr "ttk::button") (Some 1%nat) [] sample_allocated
     = Raise AttributeError sample_allocated
  /\ exists msg,
       BareWidget___init__ 7 (VStr "ttk::button") (Some 1%nat) [] sample_adopted
       = Raise (InstantiatedError msg) sample_adopted.
Proof.
  split; [|split; [|split]].
  - exact (proj1 (widget_construction_checks_the_parent 7 (VStr "ttk::button") []
                    sample_family)).
  - exact (proj1 (proj2 (widget_construction_checks_the_parent 7 (VStr "ttk::button") []
                           sample_orphan)) 1%nat eq_refl).
  - exact (proj1 (proj2 (proj2 (widget_construction_checks_the_parent 7
                                  (VStr "ttk::button") [] sample_allocated)))
             1%nat eq_refl eq_refl).
  - exact (proj2 (proj2 (proj2 (widget_construction_checks_the_parent 7
                                  (VStr "ttk::button") [] sample_adopted)))
             1%nat 1%nat eq_refl eq_refl).
Defined.
